(** * mserver: a managed HTTP server with graceful shutdown

    A shallow embedding of the Go package [mserver] (file [mserver.go] and
    the hashing helpers) and the proofs of its lifecycle properties.

    The methods of [*Mserver] run against shared memory that a second
    goroutine (the serving task) reads and writes too.  Every method is
    therefore embedded once, as a program of atomic actions (one action per
    memory access, channel operation or library call), and given two
    semantics: [run], which executes a program alone from start to end, and
    [schedule], which interleaves the goroutines of a pool. *)

From stdpp Require Import base list strings.
From Stdlib Require Import ZArith Lia.

(** ** The Go runtime objects the package touches *)

Module Go.

(** [os.Signal] values the package names: [os.Interrupt] and [os.Kill]. *)
Inductive Signal : Type :=
| Interrupt
| Kill.

#[export] Instance Signal_eq_dec : EqDecision Signal.
Proof. solve_decision. Defined.

(** A value of the interface type [error]: [nil], the package variable
    [ErrServerNotStarted], or an error made by [net/http] or [context]. *)
Inductive error : Type :=
| nil
| ErrServerNotStarted
| ErrExternal (msg : string).

#[export] Instance error_eq_dec : EqDecision error.
Proof. solve_decision. Defined.

Definition is_nil (e : error) : bool :=
  match e with
  | nil => true
  | _ => false
  end.

(** [time.Duration] is an [int64] count of nanoseconds. *)
Definition Duration : Type := Z.

(** Non-nil [*http.ServeMux] pointers. *)
Inductive ServeMux : Type :=
| DefaultServeMux
| UserMux (id : nat).

(** [http.Server], with the two fields [StartServer] fills in.  [Handler]
    is an interface value holding a [*http.ServeMux], [None] when nil. *)
Record http_Server : Type := mkServer {
  Addr : string;
  Handler : option ServeMux
}.

(** A channel value is the address of a channel object; the nil channel is
    [None] of [option chan]. *)
Definition chan : Type := nat.

(** An unbuffered [chan os.Signal]: whether it was closed, the value a
    blocked sender is offering, and the signals [signal.Notify] relays. *)
Record chan_state : Type := mkChan {
  closed : bool;
  pending : option Signal;
  notified : list Signal
}.

(** A context made by [context.WithTimeout(context.Background(), d)]. *)
Definition Context : Type := Duration.

(** The functions started with a [go] statement. *)
Inductive goroutine : Type :=
| go_startGoServerInternal.

(** What the program does to the world outside its memory, in order. *)
Inductive event : Type :=
| EvLog (line : string)
| EvMakeChan (c : chan)
| EvNotify (c : chan) (sigs : list Signal)
| EvSignalStop (c : option chan)
| EvOffer (c : chan) (s : Signal)
| EvRecv (c : chan) (s : option Signal)
| EvClose (c : chan)
| EvWithTimeout (d : Duration)
| EvCancel (ctx : Context)
| EvListenAndServe (srv : http_Server) (result : error)
| EvShutdown (srv : http_Server) (ctx : Context) (result : error)
| EvGo (g : goroutine).

End Go.

Export Go.

(** ** The data model *)

(** The struct [Mserver]. *)
Record Mserver : Type := mkMserver {
  Server : option http_Server;
  stop : option chan;
  started : bool;
  ShutdownTimeout : Duration;
  Error : error
}.

(** [&Mserver{}] *)
Definition zero_Mserver : Mserver :=
  {| Server := None; stop := None; started := false;
     ShutdownTimeout := 0%Z; Error := nil |}.

Definition set_Server (v : option http_Server) (m : Mserver) : Mserver :=
  {| Server := v; stop := stop m; started := started m;
     ShutdownTimeout := ShutdownTimeout m; Error := Error m |}.

Definition set_stop (v : option chan) (m : Mserver) : Mserver :=
  {| Server := Server m; stop := v; started := started m;
     ShutdownTimeout := ShutdownTimeout m; Error := Error m |}.

Definition set_started (v : bool) (m : Mserver) : Mserver :=
  {| Server := Server m; stop := stop m; started := v;
     ShutdownTimeout := ShutdownTimeout m; Error := Error m |}.

Definition set_ShutdownTimeout (v : Duration) (m : Mserver) : Mserver :=
  {| Server := Server m; stop := stop m; started := started m;
     ShutdownTimeout := v; Error := Error m |}.

Definition set_Error (v : error) (m : Mserver) : Mserver :=
  {| Server := Server m; stop := stop m; started := started m;
     ShutdownTimeout := ShutdownTimeout m; Error := v |}.

(** The memory the goroutines share: the [Mserver] that the receiver [p]
    points to, the channel objects, and the effects so far, oldest first. *)
Record World : Type := mkWorld {
  mserver : Mserver;
  chans : list chan_state;
  trace : list event
}.

Definition World0 : World :=
  {| mserver := zero_Mserver; chans := []; trace := [] |}.

Definition with_mserver (f : Mserver -> Mserver) (w : World) : World :=
  {| mserver := f (mserver w); chans := chans w; trace := trace w |}.

Definition with_chans (f : list chan_state -> list chan_state) (w : World) : World :=
  {| mserver := mserver w; chans := f (chans w); trace := trace w |}.

Definition emit (e : event) (w : World) : World :=
  {| mserver := mserver w; chans := chans w; trace := trace w ++ [e] |}.

(** The collaborators outside the package.  Each answer may depend on all
    that happened so far.
    - [net_ListenAndServe]: the error the [ListenAndServe] method of [http.Server]
      returns, [None] while the call does not return;
    - [net_Shutdown]: the error its [Shutdown(ctx)] method returns;
    - [os_signal]: the signal the operating system sends while a goroutine
      waits on a channel, if any. *)
Record Env : Type := mkEnv {
  net_ListenAndServe : World -> http_Server -> option error;
  net_Shutdown : World -> http_Server -> Context -> error;
  os_signal : World -> chan -> option Signal
}.

(** ** Programs of atomic actions *)

(** A program either has finished with a value, panics, performs one
    atomic action on the world (and is [Blocked] while the action cannot
    happen), or starts a goroutine. *)
Inductive prog (A : Type) : Type :=
| Ret (a : A)
| Panic (msg : string)
| Atom (f : World -> step A)
| Spawn (g : goroutine) (k : prog A)
with step (A : Type) : Type :=
| Blocked
| Next (w : World) (p : prog A).

Arguments Ret {A} a.
Arguments Panic {A} msg.
Arguments Atom {A} f.
Arguments Spawn {A} g k.
Arguments Blocked {A}.
Arguments Next {A} w p.

Scheme prog_step_ind := Induction for prog Sort Prop
  with step_prog_ind := Induction for step Sort Prop.

Fixpoint bind {A B : Type} (p : prog A) (k : A -> prog B) : prog B :=
  match p with
  | Ret a => k a
  | Panic msg => Panic msg
  | Atom f =>
      Atom (fun w =>
        match f w with
        | Blocked => Blocked
        | Next w' p' => Next w' (bind p' k)
        end)
  | Spawn g p' => Spawn g (bind p' k)
  end.

Declare Scope prog_scope.
Delimit Scope prog_scope with prog.
Bind Scope prog_scope with prog.

Notation "x <- c ;; k" := (bind c (fun x => k))
  (at level 100, c at next level, k at level 200, right associativity) : prog_scope.
Notation "c ;;; k" := (bind c (fun _ => k))
  (at level 100, k at level 200, right associativity) : prog_scope.

(** [defer d; body]: the deferred call [d] runs when [body] returns or
    panics; a panic of [body] goes on after [d], unless [d] panics too. *)
Fixpoint defer {A : Type} (d : prog unit) (body : prog A) : prog A :=
  match body with
  | Ret a => bind d (fun _ => Ret a)
  | Panic msg => bind d (fun _ => Panic msg)
  | Atom f =>
      Atom (fun w =>
        match f w with
        | Blocked => Blocked
        | Next w' p' => Next w' (defer d p')
        end)
  | Spawn g k => Spawn g (defer d k)
  end.

(** *** Sequential execution *)

Inductive outcome (A : Type) : Type :=
| Returns (a : A) (w : World)
| Blocks (w : World)
| Panics (msg : string) (w : World).

Arguments Returns {A} a w.
Arguments Blocks {A} w.
Arguments Panics {A} msg w.

(** [run p w]: the goroutine executes [p] from [w] while no other goroutine
    moves.  [Blocks w'] is a goroutine that waits for ever in [w']. *)
Fixpoint run {A : Type} (p : prog A) (w : World) : outcome A :=
  match p with
  | Ret a => Returns a w
  | Panic msg => Panics msg w
  | Atom f =>
      match f w with
      | Blocked => Blocks w
      | Next w' p' => run p' w'
      end
  | Spawn g k => run k (emit (EvGo g) w)
  end.

(** *** Interleaved execution *)

Inductive pool : Type :=
| Crashed (msg : string) (w : World)
| Alive (ts : list (prog unit)) (w : World).

(** Goroutine [i] of the pool performs its next atomic action.  A panic in
    any goroutine ends the whole process. *)
Definition sched_step (body : goroutine -> prog unit) (i : nat)
    (ts : list (prog unit)) (w : World) : pool :=
  match ts !! i with
  | None => Alive ts w
  | Some (Ret _) => Alive ts w
  | Some (Panic msg) => Crashed msg w
  | Some (Atom f) =>
      match f w with
      | Blocked => Alive ts w
      | Next w' p' => Alive (<[i := p']> ts) w'
      end
  | Some (Spawn g k) => Alive (<[i := k]> ts ++ [body g]) (emit (EvGo g) w)
  end.

Fixpoint schedule (body : goroutine -> prog unit) (sched : list nat)
    (ts : list (prog unit)) (w : World) : pool :=
  match sched with
  | [] => Alive ts w
  | i :: rest =>
      match sched_step body i ts w with
      | Crashed msg w' => Crashed msg w'
      | Alive ts' w' => schedule body rest ts' w'
      end
  end.

(** How often the trace calls [Shutdown], and how often it closes a
    channel. *)
Definition is_shutdown (e : event) : bool :=
  match e with
  | EvShutdown _ _ _ => true
  | _ => false
  end.

Definition is_close (e : event) : bool :=
  match e with
  | EvClose _ => true
  | _ => false
  end.

Definition shutdown_calls (w : World) : nat :=
  length (List.filter is_shutdown (trace w)).

Definition close_calls (w : World) : nat :=
  length (List.filter is_close (trace w)).

(** ** The primitives the methods are written with *)

Section Primitives.

Variable E : Env.

(** Reading and writing a field of [*p]. *)
Definition get {A : Type} (field : Mserver -> A) : prog A :=
  Atom (fun w => Next w (Ret (field (mserver w)))).

Definition put (update : Mserver -> Mserver) : prog unit :=
  Atom (fun w => Next (with_mserver update w) (Ret tt)).

Definition effect (e : event) : prog unit :=
  Atom (fun w => Next (emit e w) (Ret tt)).

(** [log.Println(line)] and [log.Printf] with its formatted line. *)
Definition log_Println (line : string) : prog unit := effect (EvLog line).

Definition log_Printf (line : string) : prog unit := effect (EvLog line).

(** [make(chan os.Signal)] *)
Definition make_chan : prog (option chan) :=
  Atom (fun w =>
    let c := length (chans w) in
    Next (emit (EvMakeChan c)
            (with_chans (fun cs => cs ++ [mkChan false None []]) w))
         (Ret (Some c))).

(** [signal.Notify(c, sigs...)]; it panics on a nil channel. *)
Definition signal_Notify (c : option chan) (sigs : list Signal) : prog unit :=
  match c with
  | None => Panic "os/signal: Notify using nil channel"
  | Some c =>
      Atom (fun w =>
        match chans w !! c with
        | None => Next w (Panic "invalid channel")
        | Some st =>
            Next (emit (EvNotify c sigs)
                    (with_chans
                       <[c := mkChan (closed st) (pending st) (notified st ++ sigs)]> w))
                 (Ret tt)
        end)
  end.

(** [signal.Stop(c)]: no signal is relayed to [c] any more. *)
Definition signal_Stop (c : option chan) : prog unit :=
  Atom (fun w =>
    match c with
    | None => Next (emit (EvSignalStop None) w) (Ret tt)
    | Some c' =>
        match chans w !! c' with
        | None => Next w (Panic "invalid channel")
        | Some st =>
            Next (emit (EvSignalStop c)
                    (with_chans <[c' := mkChan (closed st) (pending st) []]> w))
                 (Ret tt)
        end
    end).

(** [close(c)]: panics on a nil and on a closed channel. *)
Definition close (c : option chan) : prog unit :=
  match c with
  | None => Panic "close of nil channel"
  | Some c =>
      Atom (fun w =>
        match chans w !! c with
        | None => Next w (Panic "invalid channel")
        | Some st =>
            if closed st then Next w (Panic "close of closed channel")
            else
              Next (emit (EvClose c)
                      (with_chans <[c := mkChan true (pending st) (notified st)]> w))
                   (Ret tt)
        end)
  end.

(** [<-c]: a receive from the nil channel blocks for ever; from a closed
    channel it yields the zero value at once; from an open channel it takes
    the value a sender offers or a signal the system relays, and blocks
    while there is neither. *)
Definition recv (c : option chan) : prog (option Signal) :=
  match c with
  | None => Atom (fun _ => Blocked)
  | Some c =>
      Atom (fun w =>
        match chans w !! c with
        | None => Blocked
        | Some st =>
            if closed st then Next (emit (EvRecv c None) w) (Ret None)
            else
              match pending st with
              | Some s =>
                  Next (emit (EvRecv c (Some s))
                          (with_chans <[c := mkChan false None (notified st)]> w))
                       (Ret (Some s))
              | None =>
                  match os_signal E w c with
                  | Some s =>
                      if bool_decide (s ∈ notified st)
                      then Next (emit (EvRecv c (Some s)) w) (Ret (Some s))
                      else Blocked
                  | None => Blocked
                  end
              end
        end)
  end.

(** [c <- s] on an unbuffered channel: the sender offers [s] and waits
    until a receiver has taken it.  Sending on the nil channel blocks for
    ever, sending on a closed channel panics. *)
Definition send (c : option chan) (s : Signal) : prog unit :=
  match c with
  | None => Atom (fun _ => Blocked)
  | Some c =>
      Atom (fun w =>
        match chans w !! c with
        | None => Blocked
        | Some st =>
            if closed st then Next w (Panic "send on closed channel")
            else
              match pending st with
              | Some _ => Blocked
              | None =>
                  Next (emit (EvOffer c s)
                          (with_chans <[c := mkChan false (Some s) (notified st)]> w))
                       (Atom (fun w' =>
                          match chans w' !! c with
                          | None => Blocked
                          | Some st' =>
                              if closed st' then Next w' (Panic "send on closed channel")
                              else
                                match pending st' with
                                | Some _ => Blocked
                                | None => Next w' (Ret tt)
                                end
                          end))
              end
        end)
  end.

(** [context.WithTimeout(context.Background(), d)] and its [cancel]. *)
Definition context_WithTimeout (d : Duration) : prog Context :=
  (effect (EvWithTimeout d) ;;; Ret d)%prog.

Definition cancel (ctx : Context) : prog unit := effect (EvCancel ctx).

(** [srv.Addr], [srv.ListenAndServe()] and [srv.Shutdown(ctx)] on a
    [*http.Server]: each dereferences [srv] and panics when it is nil. *)
Definition Server_Addr (srv : option http_Server) : prog string :=
  match srv with
  | None => Panic "invalid memory address or nil pointer dereference"
  | Some s => Ret (Addr s)
  end.

Definition Server_ListenAndServe (srv : option http_Server) : prog error :=
  match srv with
  | None => Panic "invalid memory address or nil pointer dereference"
  | Some s =>
      Atom (fun w =>
        match net_ListenAndServe E w s with
        | None => Blocked
        | Some e => Next (emit (EvListenAndServe s e) w) (Ret e)
        end)
  end.

Definition Server_Shutdown (srv : option http_Server) (ctx : Context) : prog error :=
  match srv with
  | None => Panic "invalid memory address or nil pointer dereference"
  | Some s =>
      Atom (fun w =>
        let e := net_Shutdown E w s ctx in
        Next (emit (EvShutdown s ctx e) w) (Ret e))
  end.

End Primitives.

(** ** The methods of [*Mserver] (mserver.go) *)

Section Methods.

Variable E : Env.

Open Scope prog_scope.

(** [func (p *Mserver) stopServerInternal() error] *)
Definition stopServerInternal : prog error :=
  s <- get started ;;
  if negb s then Ret ErrServerNotStarted
  else
    timeout <- get ShutdownTimeout ;;
    ctx <- context_WithTimeout timeout ;;
    defer (cancel ctx) (
      ch <- get stop ;;
      defer (close ch) (
        put (set_started false) ;;;
        srv <- get Server ;;
        e <- Server_Shutdown E srv ctx ;;
        put (set_Error e) ;;;
        e1 <- get Error ;;
        if negb (is_nil e1) then e2 <- get Error ;; Ret e2
        else e2 <- get Error ;; Ret e2)).

(** [func (p *Mserver) startGoServerInternal()] *)
Definition startGoServerInternal : prog unit :=
  s <- get started ;;
  if s then log_Println " Server Already Stared"
  else
    log_Println " Server Started ..." ;;;
    put (set_started true) ;;;
    srv <- get Server ;;
    e <- Server_ListenAndServe E srv ;;
    put (set_Error e) ;;;
    log_Println " Server Stopping ..." ;;;
    e1 <- get Error ;;
    if negb (is_nil e1) then _ <- stopServerInternal ;; Ret tt
    else Ret tt.

(** [func (p *Mserver) StartServer(addr string, mux *http.ServeMux,
    timeout time.Duration)] *)
Definition StartServer (addr : string) (mux : option ServeMux)
    (timeout : Duration) : prog unit :=
  if (String.length addr =? 0)%nat || (timeout =? 0)%Z
     || bool_decide (mux = None)
  then Ret tt
  else
    c <- make_chan ;;
    put (set_stop c) ;;;
    ch <- get stop ;;
    signal_Notify ch [Kill; Interrupt] ;;;
    put (set_ShutdownTimeout timeout) ;;;
    put (set_Server (Some {| Addr := addr; Handler := mux |})) ;;;
    put (set_Error nil) ;;;
    log_Printf (" Starting Default Server at " ++ addr) ;;;
    Spawn go_startGoServerInternal (Ret tt).

(** [func (p *Mserver) StartDefaultServer(addr string, timeout
    time.Duration)] *)
Definition StartDefaultServer (addr : string) (timeout : Duration) : prog unit :=
  StartServer addr (Some DefaultServeMux) timeout.

(** [func (p *Mserver) GracefulStop(waitForInterrupt bool) error] *)
Definition GracefulStop (waitForInterrupt : bool) : prog error :=
  (if waitForInterrupt then
     e <- get Error ;;
     if is_nil e then
       log_Println " Waiting for signals ..." ;;;
       ch <- get stop ;;
       _ <- recv E ch ;;
       Ret tt
     else Ret tt
   else Ret tt) ;;;
  s <- get started ;;
  if negb s then Ret ErrServerNotStarted
  else
    srv <- get Server ;;
    addr <- Server_Addr srv ;;
    log_Printf (" Shutting down Server at " ++ addr ++ " ...") ;;;
    stopServerInternal.

(** [func (p *Mserver) ForceStop()] *)
Definition ForceStop : prog unit :=
  s <- get started ;;
  if negb s then Ret tt
  else
    ch <- get stop ;;
    signal_Stop ch ;;;
    ch' <- get stop ;;
    send ch' Kill.

(** [func NewMserver(addr string, timeout time.Duration) *Mserver]: the
    new object is the one of the world. *)
Definition NewMserver (addr : string) (timeout : Duration) : prog unit :=
  put (fun _ => zero_Mserver) ;;;
  put (set_started false) ;;;
  put (set_Error nil) ;;;
  StartDefaultServer addr timeout.

(** The body of each goroutine the package starts. *)
Definition goroutine_body (g : goroutine) : prog unit :=
  match g with
  | go_startGoServerInternal => startGoServerInternal
  end.

End Methods.


(** A caller that invokes [GracefulStop] once per flag, one call after the
    other, and collects what the calls return. *)
Fixpoint GracefulStop_each (E : Env) (flags : list bool) : prog (list error) :=
  match flags with
  | [] => Ret []
  | waitForInterrupt :: rest =>
      (e <- GracefulStop E waitForInterrupt ;;
       es <- GracefulStop_each E rest ;;
       Ret (e :: es))%prog
  end.

(** [n] triggers that reach stopServerInternal one after the other. *)
Fixpoint stopServerInternal_times (E : Env) (n : nat) : prog (list error) :=
  match n with
  | 0 => Ret []
  | S n' =>
      (e <- stopServerInternal E ;;
       es <- stopServerInternal_times E n' ;;
       Ret (e :: es))%prog
  end.

(** The program of the README: [server := mserver.NewMserver(addr,
    timeout)] followed by [server.GracefulStop(true)]. *)
Definition README_main (E : Env) (addr : string) (timeout : Duration) : prog unit :=
  (NewMserver addr timeout ;;;
   _ <- GracefulStop E true ;;
   Ret tt)%prog.

(** [time.Second] *)
Definition Second : Duration := 1000000000%Z.

(** ** Scenarios *)

(** The server listens until it is shut down, the shutdown succeeds, and
    the system sends no signal. *)
Definition E_quiet : Env :=
  {| net_ListenAndServe := fun _ _ => None;
     net_Shutdown := fun _ _ _ => nil;
     os_signal := fun _ _ => None |}.

(** The listener fails at once (the port is taken) and the user presses
    Ctrl+C; the shutdown itself succeeds. *)
Definition E_fatal : Env :=
  {| net_ListenAndServe := fun _ _ =>
       Some (ErrExternal "listen tcp :8080: bind: address already in use");
     net_Shutdown := fun _ _ _ => nil;
     os_signal := fun _ _ => Some Interrupt |}.

(** The listener serves until Shutdown is called and then returns
    [http.ErrServerClosed]; the shutdown exceeds its deadline; the system
    sends no signal. *)
Definition E_slow : Env :=
  {| net_ListenAndServe := fun w _ =>
       if (0 <? shutdown_calls w)%nat
       then Some (ErrExternal "http: Server closed")
       else None;
     net_Shutdown := fun _ _ _ => ErrExternal "context deadline exceeded";
     os_signal := fun _ _ => None |}.

Definition server8080 : http_Server :=
  {| Addr := ":8080"; Handler := Some DefaultServeMux |}.

(** The world once [StartServer(":8080", http.DefaultServeMux,
    10*time.Second)] has returned, before the serving task has moved. *)
Definition w_launched : World :=
  {| mserver :=
       {| Server := Some server8080; stop := Some 0; started := false;
          ShutdownTimeout := (10 * Second)%Z; Error := nil |};
     chans := [mkChan false None [Kill; Interrupt]];
     trace := [EvMakeChan 0; EvNotify 0 [Kill; Interrupt];
               EvLog " Starting Default Server at :8080";
               EvGo go_startGoServerInternal] |}.

(** The same server while the serving task is inside [ListenAndServe]. *)
Definition w_running : World :=
  {| mserver :=
       {| Server := Some server8080; stop := Some 0; started := true;
          ShutdownTimeout := (10 * Second)%Z; Error := nil |};
     chans := [mkChan false None [Kill; Interrupt]];
     trace := [EvMakeChan 0; EvNotify 0 [Kill; Interrupt];
               EvLog " Starting Default Server at :8080";
               EvGo go_startGoServerInternal;
               EvLog " Server Started ..."] |}.

(** A world left behind by an earlier use of the same struct, whose server
    failed: the last error is still recorded. *)
Definition w_failed_before : World :=
  {| mserver :=
       {| Server := Some server8080; stop := Some 0; started := false;
          ShutdownTimeout := (10 * Second)%Z;
          Error := ErrExternal "http: Server closed" |};
     chans := [mkChan true None [Kill; Interrupt]];
     trace := [] |}.

(** The listener serves until Shutdown is called and then returns
    [http.ErrServerClosed]; the shutdown succeeds; the user presses Ctrl+C. *)
Definition E_graceful : Env :=
  {| net_ListenAndServe := fun w _ =>
       if (0 <? shutdown_calls w)%nat
       then Some (ErrExternal "http: Server closed")
       else None;
     net_Shutdown := fun _ _ _ => nil;
     os_signal := fun _ _ => Some Interrupt |}.

(** [err.Error()], and the [<nil>] that [log.Println] prints for nil. *)
Definition Error_string (e : error) : string :=
  match e with
  | nil => "<nil>"
  | ErrServerNotStarted => "Server Not Started Yet"
  | ErrExternal msg => msg
  end.

(** The program of the README when it logs what GracefulStop returns:
    [log.Println(server.GracefulStop(true))]. *)
Definition logging_main (E : Env) (addr : string) (timeout : Duration) : prog unit :=
  (NewMserver addr timeout ;;;
   r <- GracefulStop E true ;;
   log_Println (Error_string r))%prog.

(** Two goroutines that both call stopServerInternal. *)
Definition two_stoppers (E : Env) : list (prog unit) :=
  [(_ <- stopServerInternal E ;; Ret tt)%prog;
   (_ <- stopServerInternal E ;; Ret tt)%prog].

(** The world after [GracefulStop(false)] has shut the running server
    down in the quiet scenario. *)
Definition w_stopped : World :=
  {| mserver :=
       {| Server := Some server8080; stop := Some 0; started := false;
          ShutdownTimeout := (10 * Second)%Z; Error := nil |};
     chans := [mkChan true None [Kill; Interrupt]];
     trace := [EvMakeChan 0; EvNotify 0 [Kill; Interrupt];
               EvLog " Starting Default Server at :8080";
               EvGo go_startGoServerInternal;
               EvLog " Server Started ...";
               EvWithTimeout (10 * Second)%Z;
               EvShutdown server8080 (10 * Second)%Z nil;
               EvClose 0;
               EvCancel (10 * Second)%Z] |}.

(** The state stopServerInternal leaves behind: the flag is down and the
    stop channel is closed. *)
Definition shut_down (w : World) : Prop :=
  started (mserver w) = false /\
  exists (c : chan) (st : chan_state),
    stop (mserver w) = Some c /\ chans w !! c = Some st /\ closed st = true.

(** ** The hashing helpers *)

(** *** The standard library objects they use *)

(** [bytes.Buffer]: the unread bytes are [buf[off:]]. *)
Record Buffer : Type := mkBuffer {
  buf : list Byte.byte;
  off : nat
}.

(** [bytes.NewBuffer(buf)] *)
Definition NewBuffer (bs : list Byte.byte) : Buffer := {| buf := bs; off := 0 |}.

(** [b.Len()] *)
Definition Buffer_Len (b : Buffer) : nat := length (buf b) - off b.

(** [b.Bytes()] *)
Definition Buffer_Bytes (b : Buffer) : list Byte.byte := drop (off b) (buf b).

(** [b.Reset()] *)
Definition Buffer_Reset (b : Buffer) : Buffer := {| buf := []; off := 0 |}.

(** [io.Writer]: [Write] returns the writer after the call, the number of
    bytes written and an error. *)
Class Writer (S : Type) : Type :=
  Write : S -> list Byte.byte -> S * nat * error.

Definition ErrShortWrite : error := ErrExternal "short write".

(** [b.WriteTo(w)]: writes the unread bytes to [w] and, when all of them
    were written, resets the buffer.  [None] is the panic on an invalid
    write count. *)
Definition Buffer_WriteTo {S : Type} `{Writer S} (b : Buffer) (w : S)
    : option (Buffer * S * nat * error) :=
  let nBytes := Buffer_Len b in
  if (0 <? nBytes)%nat then
    let '(w', m, e) := Write w (Buffer_Bytes b) in
    if (nBytes <? m)%nat then None
    else
      let b' := {| buf := buf b; off := off b + m |} in
      if negb (is_nil e) then Some (b', w', m, e)
      else if negb (m =? nBytes)%nat then Some (b', w', m, ErrShortWrite)
      else Some (Buffer_Reset b', w', m, nil)
  else Some (Buffer_Reset b, w, 0, nil).

(** [io.Copy(dst, src)] with a [*bytes.Buffer] as [src]: the buffer
    implements [io.WriterTo], so the copy is [src.WriteTo(dst)]. *)
Definition io_Copy {S : Type} `{Writer S} (dst : S) (src : Buffer)
    : option (Buffer * S * nat * error) :=
  Buffer_WriteTo src dst.

(** The hash functions of [crypto/sha1], [crypto/sha256], [crypto/sha512]
    and [crypto/md5]. *)
Inductive algorithm : Type :=
| SHA1
| SHA224
| SHA256
| SHA384
| SHA512
| SHA512_224
| SHA512_256
| MD5.

(** A [hash.Hash]: the function it computes and the bytes written so far. *)
Record Hash : Type := mkHash {
  algo : algorithm;
  written : list Byte.byte
}.

(** [Write] of a [hash.Hash] adds the data to the running hash and never
    returns an error. *)
#[export] Instance Hash_Writer : Writer Hash :=
  fun h p => ({| algo := algo h; written := written h ++ p |}, length p, nil).

Definition sha1_New : Hash := {| algo := SHA1; written := [] |}.
Definition sha256_New : Hash := {| algo := SHA256; written := [] |}.
Definition sha256_New224 : Hash := {| algo := SHA224; written := [] |}.
Definition sha512_New384 : Hash := {| algo := SHA384; written := [] |}.
Definition sha512_New : Hash := {| algo := SHA512; written := [] |}.
Definition sha512_New512_224 : Hash := {| algo := SHA512_224; written := [] |}.
Definition sha512_New512_256 : Hash := {| algo := SHA512_256; written := [] |}.
Definition md5_New : Hash := {| algo := MD5; written := [] |}.

Section Hashing.

(** The digest each algorithm computes from a message. *)
Variable digest : algorithm -> list Byte.byte -> list Byte.byte.

(** [h.Sum(b)] appends the hash of the bytes written so far to [b]. *)
Definition Hash_Sum (h : Hash) (b : list Byte.byte) : list Byte.byte :=
  b ++ digest (algo h) (written h).

(** *** The helpers

    Each returns the new buffer together with [*data] after the call;
    [None] is a panic. *)

(** [func Sha1(data *bytes.Buffer) *bytes.Buffer] *)
Definition Sha1 (data : Buffer) : option (Buffer * Buffer) :=
  let m := sha1_New in
  match io_Copy m data with
  | None => None
  | Some (data', m', _, _) => Some (NewBuffer (Hash_Sum m' []), data')
  end.

(** [func Sha256(data *bytes.Buffer) *bytes.Buffer] *)
Definition Sha256 (data : Buffer) : option (Buffer * Buffer) :=
  let m := sha256_New in
  match io_Copy m data with
  | None => None
  | Some (data', m', _, _) => Some (NewBuffer (Hash_Sum m' []), data')
  end.

(** [func Sha224(data *bytes.Buffer) *bytes.Buffer] *)
Definition Sha224 (data : Buffer) : option (Buffer * Buffer) :=
  let m := sha256_New224 in
  match io_Copy m data with
  | None => None
  | Some (data', m', _, _) => Some (NewBuffer (Hash_Sum m' []), data')
  end.

(** [func Sha384(data *bytes.Buffer) *bytes.Buffer] *)
Definition Sha384 (data : Buffer) : option (Buffer * Buffer) :=
  let m := sha512_New384 in
  match io_Copy m data with
  | None => None
  | Some (data', m', _, _) => Some (NewBuffer (Hash_Sum m' []), data')
  end.

(** [func Sha512(data *bytes.Buffer) *bytes.Buffer] *)
Definition Sha512 (data : Buffer) : option (Buffer * Buffer) :=
  let m := sha512_New in
  match io_Copy m data with
  | None => None
  | Some (data', m', _, _) => Some (NewBuffer (Hash_Sum m' []), data')
  end.

(** [func Sha512_224(data *bytes.Buffer) *bytes.Buffer] *)
Definition Sha512_224 (data : Buffer) : option (Buffer * Buffer) :=
  let m := sha512_New512_224 in
  match io_Copy m data with
  | None => None
  | Some (data', m', _, _) => Some (NewBuffer (Hash_Sum m' []), data')
  end.

(** [func Sha512_256(data *bytes.Buffer) *bytes.Buffer] *)
Definition Sha512_256 (data : Buffer) : option (Buffer * Buffer) :=
  let m := sha512_New512_256 in
  match io_Copy m data with
  | None => None
  | Some (data', m', _, _) => Some (NewBuffer (Hash_Sum m' []), data')
  end.

(** [func Md5(data *bytes.Buffer) *bytes.Buffer] *)
Definition Md5 (data : Buffer) : option (Buffer * Buffer) :=
  let m := md5_New in
  match io_Copy m data with
  | None => None
  | Some (data', m', _, _) => Some (NewBuffer (Hash_Sum m' []), data')
  end.

End Hashing.

(** A helper drains the buffer it is given: the call returns, and the
    buffer has no unread byte afterwards. *)
Definition drains (helper : Buffer -> option (Buffer * Buffer))
    (data : Buffer) : Prop :=
  exists out data' : Buffer,
    helper data = Some (out, data') /\ Buffer_Len data' = 0%nat.

(** ** The hexadecimal helper *)

(** The digit table package fmt uses for the verb [%x]. *)
Definition ldigits : string := "0123456789abcdefx".

(** [digits[i]]; the index is a nibble, so it is always in range. *)
Definition digit (i : N) : Ascii.ascii :=
  match String.get (N.to_nat i) ldigits with
  | Some a => a
  | None => Ascii.zero
  end.

(** [fmt.Sprintf("%x", b)] for a byte slice [b]: for each byte [c] the two
    digits [digits[c>>4]] and [digits[c&0xF]], nothing in between. *)
Fixpoint Sprintf_x (b : list Byte.byte) : string :=
  match b with
  | [] => EmptyString
  | c :: rest =>
      String (digit (N.shiftr (Byte.to_N c) 4))
        (String (digit (N.land (Byte.to_N c) 15)) (Sprintf_x rest))
  end.

(** [func BufToHexString(data *bytes.Buffer) string]; [data.Bytes()] does
    not consume the buffer. *)
Definition BufToHexString (data : Buffer) : string :=
  Sprintf_x (Buffer_Bytes data).

(** Reading a hexadecimal string back, to compare two encodings: the value
    of a lower-case digit, and the bytes of a string of digit pairs. *)
Definition hex_value (a : Ascii.ascii) : option N :=
  let n := Ascii.N_of_ascii a in
  if (48 <=? n)%N && (n <=? 57)%N then Some (n - 48)%N
  else if (97 <=? n)%N && (n <=? 102)%N then Some (n - 87)%N
  else None.

Fixpoint hex_decode (s : string) : option (list Byte.byte) :=
  match s with
  | EmptyString => Some []
  | String hi (String lo rest) =>
      match hex_value hi, hex_value lo, hex_decode rest with
      | Some h, Some l, Some bs =>
          match Byte.of_N (16 * h + l) with
          | Some c => Some (c :: bs)
          | None => None
          end
      | _, _, _ => None
      end
  | String _ EmptyString => None
  end.

(** A lower-case hexadecimal digit. *)
Definition is_lower_hex (a : Ascii.ascii) : Prop :=
  In a (String.list_ascii_of_string "0123456789abcdef").

(** ** More callers *)

(** A started server as StartServer and the serving task set it up: the
    flag is up, the Server is [srv], and the stop channel [c] is open. *)
Definition serving (w : World) (srv : http_Server) (c : chan)
    (st : chan_state) : Prop :=
  started (mserver w) = true /\
  Server (mserver w) = Some srv /\
  stop (mserver w) = Some c /\
  chans w !! c = Some st /\
  closed st = false.


(** [o] is the outcome of a whole shutdown that stopServerInternal enters
    in the world [w_in]: Shutdown is called once, on [srv], in a world whose
    flag is down already and with the deadline ShutdownTimeout; its result
    is stored in Error and handed back (as [ret r]); then the stop channel
    [c] is closed and the context cancelled. *)
Definition complete_shutdown {A : Type} (E : Env) (w_in : World)
    (srv : http_Server) (c : chan) (st : chan_state) (ret : error -> A)
    (o : outcome A) : Prop :=
  let T := ShutdownTimeout (mserver w_in) in
  let r := net_Shutdown E
             (with_mserver (set_started false) (emit (EvWithTimeout T) w_in))
             srv T in
  o = Returns (ret r)
        {| mserver := set_Error r (set_started false (mserver w_in));
           chans := <[c := mkChan true (pending st) (notified st)]> (chans w_in);
           trace := trace w_in ++
             [EvWithTimeout T; EvShutdown srv T r; EvClose c; EvCancel T] |}.

(** The world a call of StartServer with arguments that pass the guard
    returns in, from [w]: a new channel behind the existing ones, the
    fields filled in, one serving task started. *)
Definition started_world (w : World) (addr : string) (m : ServeMux)
    (timeout : Duration) : World :=
  {| mserver :=
       {| Server := Some {| Addr := addr; Handler := Some m |};
          stop := Some (length (chans w));
          started := started (mserver w);
          ShutdownTimeout := timeout;
          Error := nil |};
     chans := chans w ++ [mkChan false None [Kill; Interrupt]];
     trace := trace w ++
       [EvMakeChan (length (chans w));
        EvNotify (length (chans w)) [Kill; Interrupt];
        EvLog (" Starting Default Server at " ++ addr);
        EvGo go_startGoServerInternal] |}.

(** The running server after ForceStop has offered its signal. *)
Definition w_offered : World :=
  {| mserver := mserver w_running;
     chans := [mkChan false (Some Kill) []];
     trace := trace w_running ++ [EvSignalStop (Some 0); EvOffer 0 Kill] |}.

(** A server whose flag is up although its stop channel was closed: what
    the loser of a shutdown race finds. *)
Definition w_closed_early : World :=
  {| mserver := mserver w_running;
     chans := [mkChan true None [Kill; Interrupt]];
     trace := trace w_running |}.

(** What a helper hands back: a buffer holding the digest, under [alg], of
    the bytes that were unread in [data]; in hexadecimal, that digest. *)
Definition hashes_unread (digest : algorithm -> list Byte.byte -> list Byte.byte)
    (helper : Buffer -> option (Buffer * Buffer)) (alg : algorithm)
    (data : Buffer) : Prop :=
  exists out data' : Buffer,
    helper data = Some (out, data') /\
    Buffer_Bytes out = digest alg (Buffer_Bytes data) /\
    BufToHexString out = Sprintf_x (digest alg (Buffer_Bytes data)).

(** What a helper leaves of its argument: a buffer that prints as the
    empty string and whose hash is that of the empty message. *)
Definition leaves_empty (digest : algorithm -> list Byte.byte -> list Byte.byte)
    (helper : Buffer -> option (Buffer * Buffer)) (alg : algorithm)
    (data : Buffer) : Prop :=
  exists out data' : Buffer,
    helper data = Some (out, data') /\
    BufToHexString data' = EmptyString /\
    helper data' = Some (NewBuffer (digest alg []), data').

(** * Properties *)

(** ** Laws of sequential execution *)

Lemma run_bind {A B : Type} (p : prog A) (k : A -> prog B) :
  forall w, run (bind p k) w =
    match run p w with
    | Returns a w' => run (k a) w'
    | Blocks w' => Blocks w'
    | Panics msg w' => Panics msg w'
    end.
Proof.
  induction p using prog_step_ind with
    (P0 := fun s =>
       match s with
       | Blocked => True
       | Next _ p' =>
           forall w, run (bind p' k) w =
             match run p' w with
             | Returns a w' => run (k a) w'
             | Blocks w' => Blocks w'
             | Panics msg w' => Panics msg w'
             end
       end); simpl; intros; auto.
  specialize (H w). destruct (f w); auto.
Qed.

(** The two semantics agree: what [run] computes for a goroutine is what
    the pool computes when the scheduler picks that goroutine until it has
    returned; the goroutines it started have joined the pool. *)
Lemma run_is_a_schedule (body : goroutine -> prog unit) (p : prog unit) :
  forall (w w' : World) (rest : list (prog unit)),
  run p w = Returns tt w' ->
  exists (n : nat) (spawned : list (prog unit)),
    schedule body (replicate n 0) (p :: rest) w
    = Alive (Ret tt :: rest ++ spawned) w'.
Proof.
  induction p using prog_step_ind with
    (P0 := fun s =>
       match s with
       | Blocked => True
       | Next _ p' =>
           forall (w w' : World) (rest : list (prog unit)),
           run p' w = Returns tt w' ->
           exists (n : nat) (spawned : list (prog unit)),
             schedule body (replicate n 0) (p' :: rest) w
             = Alive (Ret tt :: rest ++ spawned) w'
       end); simpl; intros; auto.
  - injection H as -> ->. exists 0, []. simpl. rewrite app_nil_r. reflexivity.
  - discriminate.
  - specialize (H w). destruct (f w) as [| w1 p1] eqn:Hf; [discriminate |].
    destruct (H w1 w' rest H0) as (n & spawned & Hn).
    exists (S n), spawned. simpl. unfold sched_step; simpl.
    rewrite Hf. exact Hn.
  - destruct (IHp _ _ (rest ++ [body g]) H) as (n & spawned & Hn).
    exists (S n), (body g :: spawned). simpl. unfold sched_step; simpl.
    rewrite Hn, <- app_assoc. reflexivity.
Qed.

(** Proof steps that recur: name the fields of a world, and split on
    whether the result of Shutdown is nil (both branches of the source
    return the same field). *)
Ltac open_world w :=
  destruct w as [[S0 s0 b0 T0 e0] cs tr]; simpl in *; subst.

Ltac on_shutdown_result :=
  match goal with
  | |- context [is_nil ?x] => destruct (is_nil x)
  end.

Ltac count_events :=
  unfold shutdown_calls, close_calls; simpl;
  rewrite ?List.filter_app, ?length_app; simpl; lia.

Lemma shutdown_calls_emit (e : event) (w : World) :
  shutdown_calls (emit e w) =
  shutdown_calls w + (if is_shutdown e then 1 else 0).
Proof.
  unfold shutdown_calls, emit; simpl.
  rewrite List.filter_app, length_app. simpl.
  destruct (is_shutdown e); simpl; reflexivity.
Qed.

Lemma close_calls_emit (e : event) (w : World) :
  close_calls (emit e w) =
  close_calls w + (if is_close e then 1 else 0).
Proof.
  unfold close_calls, emit; simpl.
  rewrite List.filter_app, length_app. simpl.
  destruct (is_close e); simpl; reflexivity.
Qed.

(** ** StartServer *)

Lemma StartServer_guard (addr : string) (mux : option ServeMux)
    (timeout : Duration) :
  addr = EmptyString \/ mux = None \/ timeout = 0%Z ->
  StartServer addr mux timeout = Ret tt.
Proof.
  unfold StartServer.
  intros [-> | [-> | ->]].
  - reflexivity.
  - destruct (String.length addr =? 0)%nat, (timeout =? 0)%Z; reflexivity.
  - destruct (String.length addr =? 0)%nat; reflexivity.
Qed.

(** With http.DefaultServeMux as the handler the same guard decides. *)
Lemma StartDefaultServer_invalid_is_noop (addr : string) (timeout : Duration)
    (w : World) :
  addr = EmptyString \/ timeout = 0%Z ->
  run (StartDefaultServer addr timeout) w = Returns tt w.
Proof.
  intros H. unfold StartDefaultServer.
  rewrite StartServer_guard; [reflexivity | tauto].
Qed.

(** C2, as amended: StartServer called with an empty address, a nil mux
    or a timeout equal to zero is a silent no-op.  The method is the
    program that returns at once, so the world (every field of the
    Mserver, the channels and the trace, which would show a started
    goroutine) is the one before the call; StartDefaultServer, which
    passes the default mux, inherits this. *)
Theorem StartServer_invalid_is_noop (addr : string) (mux : option ServeMux)
    (timeout : Duration) (w : World) :
  addr = EmptyString \/ mux = None \/ timeout = 0%Z ->
  StartServer addr mux timeout = Ret tt /\
  run (StartServer addr mux timeout) w = Returns tt w /\
  (mux = Some DefaultServeMux ->
   run (StartDefaultServer addr timeout) w = Returns tt w).
Proof.
  intros H. pose proof (StartServer_guard addr mux timeout H) as Hg.
  split; [exact Hg |]. split.
  - rewrite Hg. reflexivity.
  - intros ->. unfold StartDefaultServer. rewrite Hg. reflexivity.
Qed.

Lemma StartServer_invalid_is_noop_witness :
  StartServer EmptyString (Some DefaultServeMux) (10 * Second)%Z = Ret tt /\
  run (StartServer EmptyString (Some DefaultServeMux) (10 * Second)%Z) World0
    = Returns tt World0 /\
  (Some DefaultServeMux = Some DefaultServeMux ->
   run (StartDefaultServer EmptyString (10 * Second)%Z) World0 = Returns tt World0).
Proof.
  apply (StartServer_invalid_is_noop EmptyString (Some DefaultServeMux)
           (10 * Second)%Z World0).
  left. reflexivity.
Defined.

(** C2, as stated, fails: a negative timeout is non-positive, yet it
    passes the guard [timeout == 0]; the call then fills the fields in and
    starts the serving task. *)
Lemma StartServer_negative_timeout_starts :
  (-1 <= 0)%Z /\
  run (StartServer ":8080" (Some DefaultServeMux) (-1)%Z) World0 =
  Returns tt
    {| mserver :=
         {| Server := Some server8080; stop := Some 0; started := false;
            ShutdownTimeout := (-1)%Z; Error := nil |};
       chans := [mkChan false None [Kill; Interrupt]];
       trace := [EvMakeChan 0; EvNotify 0 [Kill; Interrupt];
                 EvLog " Starting Default Server at :8080";
                 EvGo go_startGoServerInternal] |}.
Proof. split; [lia | reflexivity]. Qed.

(** ** stopServerInternal *)

(** C5: called while [started] is false, stopServerInternal returns
    ErrServerNotStarted and leaves the world as it was: no Shutdown call,
    no close of the stop channel, no field of the Mserver written. *)
Theorem stopServerInternal_not_started (E : Env) (w : World) :
  started (mserver w) = false ->
  run (stopServerInternal E) w = Returns ErrServerNotStarted w.
Proof.
  intros H. unfold stopServerInternal. simpl. rewrite H. reflexivity.
Qed.

Lemma stopServerInternal_not_started_witness :
  run (stopServerInternal E_slow) w_launched
  = Returns ErrServerNotStarted w_launched.
Proof.
  apply (stopServerInternal_not_started E_slow w_launched). reflexivity.
Defined.

(** What a call of stopServerInternal does when the guard lets it pass,
    as one equation: the world [w_call] in which Shutdown is invoked, the
    result [r] of that call, and the world the method returns in. *)
Lemma stopServerInternal_run (E : Env) (w : World) (srv : http_Server)
    (c : chan) (st : chan_state) :
  started (mserver w) = true ->
  Server (mserver w) = Some srv ->
  stop (mserver w) = Some c ->
  chans w !! c = Some st ->
  closed st = false ->
  run (stopServerInternal E) w =
    let T := ShutdownTimeout (mserver w) in
    let w_call := with_mserver (set_started false) (emit (EvWithTimeout T) w) in
    let r := net_Shutdown E w_call srv T in
    Returns r
      (emit (EvCancel T)
         (emit (EvClose c)
            (with_chans <[c := mkChan true (pending st) (notified st)]>
               (with_mserver (set_Error r) (emit (EvShutdown srv T r) w_call))))).
Proof.
  intros Hs Hsrv Hstop Hc Hopen.
  open_world w.
  unfold stopServerInternal; simpl.
  on_shutdown_result;
    simpl; rewrite Hc, Hopen; reflexivity.
Qed.

(** C6, as amended: called while [started] is true on a server whose
    Server is set and whose stop channel is open, and executed with no
    other goroutine writing the Mserver meanwhile ([run]),
    stopServerInternal writes false to [started] before it invokes
    Shutdown: the world [w_call] the call is made in already has the flag
    down.  The deadline of the call is the configured ShutdownTimeout; the
    result [r] is stored in Error and it is the value returned. *)
Theorem stopServerInternal_started (E : Env) (w : World) (srv : http_Server)
    (c : chan) (st : chan_state) :
  started (mserver w) = true ->
  Server (mserver w) = Some srv ->
  stop (mserver w) = Some c ->
  chans w !! c = Some st ->
  closed st = false ->
  exists (w_call w' : World) (r : error),
    mserver w_call = set_started false (mserver w) /\
    started (mserver w_call) = false /\
    chans w_call = chans w /\
    trace w_call = trace w ++ [EvWithTimeout (ShutdownTimeout (mserver w))] /\
    r = net_Shutdown E w_call srv (ShutdownTimeout (mserver w)) /\
    run (stopServerInternal E) w = Returns r w' /\
    mserver w' = set_Error r (set_started false (mserver w)) /\
    Error (mserver w') = r /\
    started (mserver w') = false /\
    chans w' = <[c := mkChan true (pending st) (notified st)]> (chans w) /\
    trace w' = trace w ++
      [EvWithTimeout (ShutdownTimeout (mserver w));
       EvShutdown srv (ShutdownTimeout (mserver w)) r;
       EvClose c;
       EvCancel (ShutdownTimeout (mserver w))].
Proof.
  intros Hs Hsrv Hstop Hc Hopen.
  pose proof (stopServerInternal_run E w srv c st Hs Hsrv Hstop Hc Hopen) as Hrun.
  cbv zeta in Hrun.
  exists (with_mserver (set_started false)
            (emit (EvWithTimeout (ShutdownTimeout (mserver w))) w)).
  do 2 eexists.
  refine (conj _ (conj _ (conj _ (conj _ (conj _ (conj Hrun _))))));
    try reflexivity.
  repeat split; try reflexivity.
  simpl. rewrite <- !app_assoc. reflexivity.
Qed.

Lemma stopServerInternal_started_witness :
  exists (w_call w' : World) (r : error),
    mserver w_call = set_started false (mserver w_running) /\
    started (mserver w_call) = false /\
    chans w_call = chans w_running /\
    trace w_call = trace w_running ++ [EvWithTimeout (10 * Second)%Z] /\
    r = net_Shutdown E_slow w_call server8080 (10 * Second)%Z /\
    run (stopServerInternal E_slow) w_running = Returns r w' /\
    mserver w' = set_Error r (set_started false (mserver w_running)) /\
    Error (mserver w') = r /\
    started (mserver w') = false /\
    chans w' = [mkChan true None [Kill; Interrupt]] /\
    trace w' = trace w_running ++
      [EvWithTimeout (10 * Second)%Z;
       EvShutdown server8080 (10 * Second)%Z r;
       EvClose 0;
       EvCancel (10 * Second)%Z].
Proof.
  apply (stopServerInternal_started E_slow w_running server8080 0
           (mkChan false None [Kill; Interrupt]));
    reflexivity.
Defined.

(** C6, as stated, fails: [started] alone does not make the call
    return the result of Shutdown.  On a server whose flag is up while its
    stop channel is closed already, the call sets the flag down, calls
    Shutdown and stores the result, and then panics in the deferred close
    instead of returning.  And in the program of the README, when the
    serving task stores the error of ListenAndServe between the caller's
    store and its reads of Error, the call hands [http: Server closed] to
    GracefulStop, which the caller logs, although Shutdown returned nil. *)
Lemma stopServerInternal_started_need_not_return_result :
  run (stopServerInternal E_slow) w_closed_early =
  Panics "close of closed channel"
    {| mserver :=
         {| Server := Some server8080; stop := Some 0; started := false;
            ShutdownTimeout := (10 * Second)%Z;
            Error := ErrExternal "context deadline exceeded" |};
       chans := [mkChan true None [Kill; Interrupt]];
       trace := trace w_running ++
         [EvWithTimeout (10 * Second)%Z;
          EvShutdown server8080 (10 * Second)%Z
            (ErrExternal "context deadline exceeded");
          EvCancel (10 * Second)%Z] |} /\
  exists (serving_task : prog unit) (w : World),
    schedule (goroutine_body E_graceful)
      (replicate 15 0 ++ replicate 4 1 ++ replicate 12 0 ++ replicate 2 1
       ++ replicate 5 0)
      [logging_main E_graceful ":8080" (10 * Second)%Z] World0
    = Alive [Ret tt; serving_task] w /\
    trace w =
      [EvMakeChan 0; EvNotify 0 [Kill; Interrupt];
       EvLog " Starting Default Server at :8080";
       EvGo go_startGoServerInternal;
       EvLog " Waiting for signals ...";
       EvLog " Server Started ...";
       EvRecv 0 (Some Interrupt);
       EvLog " Shutting down Server at :8080 ...";
       EvWithTimeout (10 * Second)%Z;
       EvShutdown server8080 (10 * Second)%Z nil;
       EvListenAndServe server8080 (ErrExternal "http: Server closed");
       EvClose 0;
       EvCancel (10 * Second)%Z;
       EvLog "http: Server closed"].
Proof.
  split; [reflexivity |].
  eexists _, _. split; reflexivity.
Qed.

(** ** ForceStop *)

(** C8: on an Mserver whose [started] is false, ForceStop returns at once
    and the world is the one before the call: signal.Stop was not called,
    nothing was sent on the stop channel, no field was written. *)
Theorem ForceStop_not_started (w : World) :
  started (mserver w) = false ->
  run ForceStop w = Returns tt w.
Proof.
  intros H. unfold ForceStop. simpl. rewrite H. reflexivity.
Qed.

Lemma ForceStop_not_started_witness :
  run ForceStop World0 = Returns tt World0.
Proof.
  apply (ForceStop_not_started World0). reflexivity.
Defined.

(** ** GracefulStop *)

(** On a server that was never started a waiting call does not come back,
    whatever the environment does: the receive is on the nil channel. *)
Lemma GracefulStop_wait_on_nil_blocks (E : Env) (w : World) :
  Error (mserver w) = nil ->
  stop (mserver w) = None ->
  run (GracefulStop E true) w = Blocks (emit (EvLog " Waiting for signals ...") w).
Proof.
  intros He Hs. unfold GracefulStop. simpl. rewrite He. simpl.
  rewrite Hs. reflexivity.
Qed.

(** C4, as amended: on an Mserver on which Start was never called
    ([started] false, Error nil, stop channel nil), GracefulStop(false)
    returns ErrServerNotStarted without blocking and without any effect. *)
Theorem GracefulStop_never_started_no_wait (E : Env) (w : World) :
  started (mserver w) = false ->
  Error (mserver w) = nil ->
  stop (mserver w) = None ->
  run (GracefulStop E false) w = Returns ErrServerNotStarted w.
Proof.
  intros Hs _ _. unfold GracefulStop. simpl. rewrite Hs. reflexivity.
Qed.

Lemma GracefulStop_never_started_no_wait_witness :
  run (GracefulStop E_fatal false) World0 = Returns ErrServerNotStarted World0.
Proof.
  apply (GracefulStop_never_started_no_wait E_fatal World0); reflexivity.
Defined.

(** C4, as stated, fails for waitForInterrupt = true: on the zero Mserver
    the call logs that it waits and then blocks for ever in the receive
    from the nil stop channel; it never returns ErrServerNotStarted. *)
Lemma GracefulStop_never_started_wait_blocks :
  run (GracefulStop E_quiet true) World0 =
  Blocks {| mserver := zero_Mserver; chans := [];
            trace := [EvLog " Waiting for signals ..."] |}.
Proof. reflexivity. Qed.

(** A call of stopServerInternal that passed the guard and returned has
    shut the server down, with one Shutdown call and one close. *)
Lemma stopServerInternal_returns_shut_down (E : Env) (w w1 : World) (r : error) :
  started (mserver w) = true ->
  run (stopServerInternal E) w = Returns r w1 ->
  shut_down w1 /\ Error (mserver w1) = r /\
  shutdown_calls w1 = S (shutdown_calls w) /\
  close_calls w1 = S (close_calls w).
Proof.
  intros Hs Hrun.
  destruct (Server (mserver w)) as [srv |] eqn:Hsrv;
    destruct (stop (mserver w)) as [c |] eqn:Hstop.
  - destruct (chans w !! c) as [st |] eqn:Hc.
    + destruct (closed st) eqn:Hopen.
      * exfalso. revert Hrun.
        open_world w.
        unfold stopServerInternal; simpl.
        on_shutdown_result;
          simpl; rewrite Hc, Hopen; simpl; discriminate.
      * rewrite (stopServerInternal_run E w srv c st Hs Hsrv Hstop Hc Hopen) in Hrun.
        cbv zeta in Hrun. injection Hrun as Hr Hw. subst w1.
        split; [| split; [| split]].
        -- split; [reflexivity |]. exists c, (mkChan true (pending st) (notified st)).
           simpl. repeat split; [exact Hstop |].
           apply list_lookup_insert_eq. eapply lookup_lt_Some; exact Hc.
        -- simpl. exact Hr.
        -- count_events.
        -- count_events.
    + exfalso. revert Hrun.
      open_world w.
      unfold stopServerInternal; simpl.
      on_shutdown_result;
        simpl; rewrite Hc; simpl; discriminate.
  - exfalso. revert Hrun.
    open_world w.
    unfold stopServerInternal; simpl.
    on_shutdown_result;
      simpl; discriminate.
  - exfalso. revert Hrun.
    open_world w.
    unfold stopServerInternal; simpl.
    destruct (cs !! c) as [st |] eqn:Hc; simpl; [| discriminate].
    destruct (closed st); simpl; discriminate.
  - exfalso. revert Hrun.
    open_world w.
    unfold stopServerInternal; simpl. discriminate.
Qed.

(** On a server that was shut down, GracefulStop returns
    ErrServerNotStarted; a waiting call finds the stop channel closed and
    goes on at once.  Only the log line and the receive are added to the
    trace. *)
Lemma GracefulStop_shut_down (E : Env) (waitForInterrupt : bool) (w : World) :
  shut_down w ->
  exists w' : World,
    run (GracefulStop E waitForInterrupt) w = Returns ErrServerNotStarted w' /\
    mserver w' = mserver w /\ chans w' = chans w /\
    shutdown_calls w' = shutdown_calls w /\
    close_calls w' = close_calls w.
Proof.
  intros (Hs & c & st & Hstop & Hc & Hclosed).
  unfold GracefulStop.
  destruct waitForInterrupt; simpl.
  - destruct (is_nil (Error (mserver w))) eqn:He; simpl.
    + rewrite Hstop; simpl. rewrite Hc, Hclosed; simpl. rewrite Hs; simpl.
      eexists; split; [reflexivity |].
      rewrite !shutdown_calls_emit, !close_calls_emit; simpl.
      repeat split; lia.
    + rewrite Hs; simpl. eexists; repeat split; reflexivity.
  - rewrite Hs; simpl. eexists; repeat split; reflexivity.
Qed.

Lemma GracefulStop_each_shut_down (E : Env) (flags : list bool) :
  forall w : World,
  shut_down w ->
  exists w' : World,
    run (GracefulStop_each E flags) w =
      Returns (replicate (length flags) ErrServerNotStarted) w' /\
    mserver w' = mserver w /\ chans w' = chans w /\
    shutdown_calls w' = shutdown_calls w /\
    close_calls w' = close_calls w.
Proof.
  induction flags as [| f flags IH]; intros w Hw.
  - exists w. simpl. repeat split; reflexivity.
  - destruct (GracefulStop_shut_down E f w Hw) as (w1 & Hrun & Hm & Hch & Hsd & Hcl).
    assert (Hw1 : shut_down w1).
    { destruct Hw as (Hs & c & st & Hstop & Hc & Hclosed).
      split; [rewrite Hm; exact Hs |].
      exists c, st. rewrite Hm, Hch. auto. }
    destruct (IH w1 Hw1) as (w2 & Hrun2 & Hm2 & Hch2 & Hsd2 & Hcl2).
    exists w2. simpl GracefulStop_each.
    rewrite run_bind, Hrun, run_bind, Hrun2. simpl.
    repeat split; congruence.
Qed.

(** C7: once stopServerInternal has run on a started server and returned,
    every later call of GracefulStop, waiting or not, returns
    ErrServerNotStarted, and none of them repeats the effects of the
    shutdown: the fields of the Mserver and the channels stay as they are
    and the trace gains no Shutdown call and no close. *)
Theorem GracefulStop_after_shutdown (E : Env) (w w1 : World) (r : error)
    (flags : list bool) :
  started (mserver w) = true ->
  run (stopServerInternal E) w = Returns r w1 ->
  exists w2 : World,
    run (GracefulStop_each E flags) w1 =
      Returns (replicate (length flags) ErrServerNotStarted) w2 /\
    mserver w2 = mserver w1 /\ chans w2 = chans w1 /\
    shutdown_calls w2 = shutdown_calls w1 /\
    close_calls w2 = close_calls w1.
Proof.
  intros Hs Hrun.
  apply GracefulStop_each_shut_down.
  apply (stopServerInternal_returns_shut_down E w w1 r Hs Hrun).
Qed.

Lemma GracefulStop_after_shutdown_witness :
  exists w2 : World,
    run (GracefulStop_each E_quiet [true; false; true]) w_stopped =
      Returns [ErrServerNotStarted; ErrServerNotStarted; ErrServerNotStarted] w2 /\
    mserver w2 = mserver w_stopped /\ chans w2 = chans w_stopped /\
    shutdown_calls w2 = shutdown_calls w_stopped /\
    close_calls w2 = close_calls w_stopped.
Proof.
  apply (GracefulStop_after_shutdown E_quiet w_running w_stopped nil
           [true; false; true]);
    reflexivity.
Defined.

(** ** The serving task *)





(** ** Racing shutdowns *)

(** Triggers that reach stopServerInternal in turn: the first call shuts
    the server down, every later one is turned away by the guard.  One
    Shutdown call and one close, however many triggers there are. *)
Lemma stopServerInternal_skips_when_down (E : Env) (n : nat) :
  forall w : World,
  started (mserver w) = false ->
  run (stopServerInternal_times E n) w
  = Returns (replicate n ErrServerNotStarted) w.
Proof.
  induction n as [| n IH]; intros w Hs; [reflexivity |].
  cbn [stopServerInternal_times].
  assert (Hskip : run (stopServerInternal E) w = Returns ErrServerNotStarted w).
  { unfold stopServerInternal. simpl. rewrite Hs. reflexivity. }
  rewrite run_bind, Hskip, run_bind, (IH w Hs). reflexivity.
Qed.

(** X15: stopServerInternal is idempotent when its callers take turns:
    of any number of calls made one after the other on a started server,
    the first returns the result of Shutdown (the call made in the world
    whose flag is down already, with the deadline ShutdownTimeout) and
    stores it in Error, and every later one returns ErrServerNotStarted and
    changes nothing; Shutdown is called once and the stop channel is closed
    once. *)
Lemma triggers_in_turn_shut_down_once (E : Env) (w : World)
    (srv : http_Server) (c : chan) (st : chan_state) (n : nat) :
  started (mserver w) = true ->
  Server (mserver w) = Some srv ->
  stop (mserver w) = Some c ->
  chans w !! c = Some st ->
  closed st = false ->
  exists w' : World,
    run (stopServerInternal_times E (S n)) w
    = Returns
        (net_Shutdown E
           (with_mserver (set_started false)
              (emit (EvWithTimeout (ShutdownTimeout (mserver w))) w))
           srv (ShutdownTimeout (mserver w))
         :: replicate n ErrServerNotStarted) w' /\
    Error (mserver w') =
      net_Shutdown E
        (with_mserver (set_started false)
           (emit (EvWithTimeout (ShutdownTimeout (mserver w))) w))
        srv (ShutdownTimeout (mserver w)) /\
    started (mserver w') = false /\
    chans w' = <[c := mkChan true (pending st) (notified st)]> (chans w) /\
    trace w' = trace w ++
      [EvWithTimeout (ShutdownTimeout (mserver w));
       EvShutdown srv (ShutdownTimeout (mserver w))
         (net_Shutdown E
            (with_mserver (set_started false)
               (emit (EvWithTimeout (ShutdownTimeout (mserver w))) w))
            srv (ShutdownTimeout (mserver w)));
       EvClose c;
       EvCancel (ShutdownTimeout (mserver w))] /\
    shutdown_calls w' = S (shutdown_calls w) /\
    close_calls w' = S (close_calls w).
Proof.
  intros Hs Hsrv Hstop Hc Hopen.
  pose proof (stopServerInternal_run E w srv c st Hs Hsrv Hstop Hc Hopen) as Hrun.
  cbv zeta in Hrun.
  cbn [stopServerInternal_times].
  rewrite run_bind, Hrun, run_bind.
  rewrite stopServerInternal_skips_when_down by reflexivity.
  eexists. split; [reflexivity |].
  split; [reflexivity |]. split; [reflexivity |]. split; [reflexivity |].
  split; [simpl; rewrite <- !app_assoc; reflexivity |].
  split; count_events.
Qed.

(** When the goroutines take turns, the guard works: the serving task
    fails, runs the whole shutdown, and the waiting caller, woken by the
    closed channel, finds the flag down.  One Shutdown call, one close. *)
Lemma shutdown_in_turn_runs_Shutdown_once :
  exists w : World,
    schedule (goroutine_body E_fatal)
      (replicate 15 0 ++ replicate 20 1 ++ replicate 2 0)
      [README_main E_fatal ":8080" (10 * Second)%Z] World0
    = Alive [Ret tt; Ret tt] w /\
    shutdown_calls w = 1 /\ close_calls w = 1.
Proof. eexists. split; [reflexivity | split; reflexivity]. Qed.

(** The race in the small: two goroutines call stopServerInternal on the
    running server and both read [started] before either writes it. *)
Lemma stopServerInternal_guard_race :
  exists w : World,
    schedule (goroutine_body E_quiet)
      ([0; 1] ++ replicate 11 0 ++ replicate 12 1)
      (two_stoppers E_quiet) w_running
    = Crashed "close of closed channel" w /\
    shutdown_calls w = 2 /\ close_calls w = 1.
Proof. eexists. repeat split; reflexivity. Qed.

(** C1 fails on the code: the program of the README, with a listener
    that fails while the user presses Ctrl+C.  The serving task reads
    [started] (true) in stopServerInternal and is preempted before it
    writes false; the caller of GracefulStop(true), woken by the signal,
    reads [started] (still true) and runs the whole shutdown; the serving
    task then calls Shutdown a second time and its close of the stop
    channel, closed already, panics. *)
Theorem shutdown_race_runs_Shutdown_twice :
  exists w : World,
    schedule (goroutine_body E_fatal)
      (replicate 15 0 ++ replicate 9 1 ++ replicate 16 0 ++ replicate 12 1)
      [README_main E_fatal ":8080" (10 * Second)%Z] World0
    = Crashed "close of closed channel" w /\
    shutdown_calls w = 2 /\
    close_calls w = 1 /\
    trace w =
      [EvMakeChan 0; EvNotify 0 [Kill; Interrupt];
       EvLog " Starting Default Server at :8080";
       EvGo go_startGoServerInternal;
       EvLog " Waiting for signals ...";
       EvLog " Server Started ...";
       EvListenAndServe server8080
         (ErrExternal "listen tcp :8080: bind: address already in use");
       EvLog " Server Stopping ...";
       EvRecv 0 (Some Interrupt);
       EvLog " Shutting down Server at :8080 ...";
       EvWithTimeout (10 * Second)%Z;
       EvShutdown server8080 (10 * Second)%Z nil;
       EvClose 0;
       EvCancel (10 * Second)%Z;
       EvWithTimeout (10 * Second)%Z;
       EvShutdown server8080 (10 * Second)%Z nil;
       EvCancel (10 * Second)%Z].
Proof. eexists. repeat split; reflexivity. Qed.

(** ** What the interleaving adds to the sequential results *)

(** stopServerInternal returns what it reads back from Error.  In a
    graceful shutdown the serving task stores the error of ListenAndServe
    in the same field; when that store falls between the caller's store
    and its reads, GracefulStop returns [http: Server closed] although
    Shutdown returned nil.  The sequential results above are about a call
    that no other goroutine interleaves with. *)
Lemma GracefulStop_result_overwritten_by_serving_task :
  exists w : World,
    schedule (goroutine_body E_graceful)
      (replicate 15 0 ++ replicate 4 1 ++ replicate 12 0 ++ replicate 2 1
       ++ replicate 5 0 ++ replicate 3 1)
      [logging_main E_graceful ":8080" (10 * Second)%Z] World0
    = Alive [Ret tt; Ret tt] w /\
    trace w =
      [EvMakeChan 0; EvNotify 0 [Kill; Interrupt];
       EvLog " Starting Default Server at :8080";
       EvGo go_startGoServerInternal;
       EvLog " Waiting for signals ...";
       EvLog " Server Started ...";
       EvRecv 0 (Some Interrupt);
       EvLog " Shutting down Server at :8080 ...";
       EvWithTimeout (10 * Second)%Z;
       EvShutdown server8080 (10 * Second)%Z nil;
       EvListenAndServe server8080 (ErrExternal "http: Server closed");
       EvClose 0;
       EvCancel (10 * Second)%Z;
       EvLog "http: Server closed";
       EvLog " Server Stopping ..."].
Proof. eexists. split; reflexivity. Qed.

(** The same program when the caller finishes before the serving task
    moves on: GracefulStop returns nil. *)
Lemma GracefulStop_result_in_turn :
  exists w : World,
    schedule (goroutine_body E_graceful)
      (replicate 15 0 ++ replicate 4 1 ++ replicate 17 0 ++ replicate 5 1)
      [logging_main E_graceful ":8080" (10 * Second)%Z] World0
    = Alive [Ret tt; Ret tt] w /\
    shutdown_calls w = 1 /\ close_calls w = 1 /\
    In (EvLog "<nil>") (trace w).
Proof. eexists. repeat split; try reflexivity. simpl. tauto. Qed.

(** ** A second start of the same struct *)

Lemma lookup_fresh {A : Type} (l : list A) (x : A) :
  (l ++ [x]) !! length l = Some x.
Proof. induction l as [| a l IH]; simpl; [reflexivity | exact IH]. Qed.

Lemma insert_fresh {A : Type} (l : list A) (x y : A) :
  <[length l := y]> (l ++ [x]) = l ++ [y].
Proof.
  induction l as [| a l IH]; simpl; [reflexivity |].
  f_equal. exact IH.
Qed.

(** The state in which stopServerInternal finds a started server: after
    a StartServer that passed the guard, the serving task, once inside
    ListenAndServe, has set the flag; the Server is set and the stop
    channel is open. *)
Lemma started_server_is_set_up (E : Env) (w : World) (addr : string)
    (m : ServeMux) (timeout : Duration) :
  addr <> EmptyString ->
  timeout <> 0%Z ->
  started (mserver w) = false ->
  (forall (w' : World) (srv : http_Server), net_ListenAndServe E w' srv = None) ->
  exists w_r : World,
    run (StartServer addr (Some m) timeout ;;; startGoServerInternal E)%prog w
    = Blocks w_r /\
    started (mserver w_r) = true /\
    Server (mserver w_r) = Some {| Addr := addr; Handler := Some m |} /\
    ShutdownTimeout (mserver w_r) = timeout /\
    stop (mserver w_r) = Some (length (chans w)) /\
    chans w_r !! length (chans w) = Some (mkChan false None [Kill; Interrupt]).
Proof.
  intros Haddr Htimeout Hs Hserve.
  assert (Hguard : (String.length addr =? 0)%nat || (timeout =? 0)%Z
                   || bool_decide (Some m = None) = false).
  { destruct addr as [| a addr]; [congruence |].
    apply Z.eqb_neq in Htimeout. rewrite Htimeout. reflexivity. }
  destruct w as [[S0 s0 b0 T0 e0] cs tr]. simpl in Hs. subst b0.
  assert (Hl : forall x : chan_state, (cs ++ [x]) !! length cs = Some x)
    by (intros; apply lookup_fresh).
  assert (Hi : forall x y : chan_state,
            <[length cs := y]> (cs ++ [x]) = cs ++ [y])
    by (intros; apply insert_fresh).
  unfold StartServer. rewrite Hguard. simpl.
  rewrite Hl. simpl. rewrite Hserve.
  eexists. split; [reflexivity |]. simpl.
  repeat split. rewrite Hi. apply Hl.
Qed.

(** C10: a call of StartServer that passes the guard (non-empty address,
    non-nil mux, timeout not zero) writes nil to Error before it starts
    the serving task: after eight steps of the caller the pool still holds
    the caller alone, about to execute the go statement, and Error is nil
    in that world [w_go], whatever error an earlier use had left; the
    ninth step adds the serving task.  A GracefulStop(true) that follows
    therefore waits: while no signal arrives it stays blocked in the
    receive from the new stop channel. *)
Theorem StartServer_resets_Error_before_go (E : Env) (w : World)
    (addr : string) (m : ServeMux) (timeout : Duration) :
  addr <> EmptyString ->
  timeout <> 0%Z ->
  exists w_go : World,
    Error (mserver w_go) = nil /\
    stop (mserver w_go) = Some (length (chans w)) /\
    schedule (goroutine_body E) (replicate 8 0)
      [StartServer addr (Some m) timeout] w
    = Alive [Spawn go_startGoServerInternal (Ret tt)] w_go /\
    schedule (goroutine_body E) (replicate 9 0)
      [StartServer addr (Some m) timeout] w
    = Alive [Ret tt; startGoServerInternal E]
        (emit (EvGo go_startGoServerInternal) w_go) /\
    run (StartServer addr (Some m) timeout) w
    = Returns tt (emit (EvGo go_startGoServerInternal) w_go) /\
    (os_signal E
       (emit (EvLog " Waiting for signals ...")
          (emit (EvGo go_startGoServerInternal) w_go))
       (length (chans w)) = None ->
     run (GracefulStop E true) (emit (EvGo go_startGoServerInternal) w_go)
     = Blocks (emit (EvLog " Waiting for signals ...")
                 (emit (EvGo go_startGoServerInternal) w_go))).
Proof.
  intros Haddr Htimeout.
  assert (Hguard : (String.length addr =? 0)%nat || (timeout =? 0)%Z
                   || bool_decide (Some m = None) = false).
  { destruct addr as [| a addr]; [congruence |].
    apply Z.eqb_neq in Htimeout. rewrite Htimeout. reflexivity. }
  exists {| mserver :=
              {| Server := Some {| Addr := addr; Handler := Some m |};
                 stop := Some (length (chans w));
                 started := started (mserver w);
                 ShutdownTimeout := timeout;
                 Error := nil |};
            chans := chans w ++ [mkChan false None [Kill; Interrupt]];
            trace := trace w ++
              [EvMakeChan (length (chans w));
               EvNotify (length (chans w)) [Kill; Interrupt];
               EvLog (" Starting Default Server at " ++ addr)] |}.
  destruct w as [[S0 s0 b0 T0 e0] cs tr].
  assert (Hl : forall x : chan_state, (cs ++ [x]) !! length cs = Some x)
    by (intros; apply lookup_fresh).
  assert (Hi : forall x y : chan_state,
            <[length cs := y]> (cs ++ [x]) = cs ++ [y])
    by (intros; apply insert_fresh).
  unfold StartServer. rewrite Hguard.
  split; [reflexivity |]. split; [reflexivity |].
  split; [| split; [| split]].
  - simpl.
    repeat (progress (unfold sched_step, emit, with_mserver, with_chans;
                      simpl; rewrite ?Hl, ?Hi, <- ?app_assoc)).
    reflexivity.
  - simpl.
    repeat (progress (unfold sched_step, emit, with_mserver, with_chans;
                      simpl; rewrite ?Hl, ?Hi, <- ?app_assoc)).
    reflexivity.
  - simpl.
    repeat (progress (unfold emit, with_mserver, with_chans;
                      simpl; rewrite ?Hl, ?Hi, <- ?app_assoc)).
    reflexivity.
  - intros Hquiet. unfold GracefulStop. simpl.
    rewrite Hl. simpl.
    unfold emit in Hquiet; simpl in Hquiet. unfold emit; simpl.
    rewrite Hquiet. reflexivity.
Qed.

Lemma StartServer_resets_Error_before_go_witness :
  exists w_go : World,
    Error (mserver w_go) = nil /\
    stop (mserver w_go) = Some (length (chans w_failed_before)) /\
    schedule (goroutine_body E_quiet) (replicate 8 0)
      [StartServer ":8080" (Some DefaultServeMux) (10 * Second)%Z]
      w_failed_before
    = Alive [Spawn go_startGoServerInternal (Ret tt)] w_go /\
    schedule (goroutine_body E_quiet) (replicate 9 0)
      [StartServer ":8080" (Some DefaultServeMux) (10 * Second)%Z]
      w_failed_before
    = Alive [Ret tt; startGoServerInternal E_quiet]
        (emit (EvGo go_startGoServerInternal) w_go) /\
    run (StartServer ":8080" (Some DefaultServeMux) (10 * Second)%Z)
      w_failed_before
    = Returns tt (emit (EvGo go_startGoServerInternal) w_go) /\
    (os_signal E_quiet
       (emit (EvLog " Waiting for signals ...")
          (emit (EvGo go_startGoServerInternal) w_go))
       (length (chans w_failed_before)) = None ->
     run (GracefulStop E_quiet true) (emit (EvGo go_startGoServerInternal) w_go)
     = Blocks (emit (EvLog " Waiting for signals ...")
                 (emit (EvGo go_startGoServerInternal) w_go))).
Proof.
  apply (StartServer_resets_Error_before_go E_quiet w_failed_before ":8080"
           DefaultServeMux (10 * Second)%Z).
  - discriminate.
  - unfold Second. lia.
Defined.

(** Without the reset the comparison would have come out otherwise: with
    the error of the earlier use still recorded, GracefulStop(true) does
    not wait. *)
Example GracefulStop_does_not_wait_on_recorded_error :
  run (GracefulStop E_quiet true) w_failed_before
  = Returns ErrServerNotStarted w_failed_before.
Proof. reflexivity. Qed.

(** ** The hashing helpers *)

(** Copying a buffer into a hash writes all unread bytes and resets the
    buffer. *)
Lemma io_Copy_into_Hash (h : Hash) (b : Buffer) :
  io_Copy h b =
  Some (NewBuffer [],
        {| algo := algo h; written := written h ++ Buffer_Bytes b |},
        Buffer_Len b, nil).
Proof.
  unfold io_Copy, Buffer_WriteTo.
  destruct (0 <? Buffer_Len b)%nat eqn:Hlen.
  - unfold Write, Hash_Writer.
    assert (Hm : length (Buffer_Bytes b) = Buffer_Len b).
    { unfold Buffer_Bytes, Buffer_Len. apply length_drop. }
    rewrite Hm, Nat.ltb_irrefl, Nat.eqb_refl. reflexivity.
  - apply Nat.ltb_ge in Hlen.
    assert (Hb : Buffer_Bytes b = []).
    { unfold Buffer_Bytes. apply drop_ge. unfold Buffer_Len in Hlen. lia. }
    rewrite Hb, app_nil_r.
    replace (Buffer_Len b) with 0%nat by lia.
    destruct h; reflexivity.
Qed.

Section HashingProperties.

Variable digest : algorithm -> list Byte.byte -> list Byte.byte.

(** What every helper does, for the hash [h] it starts from. *)
Lemma helper_result (h : Hash) (data : Buffer) :
  written h = [] ->
  match io_Copy h data with
  | None => None
  | Some (data', m', _, _) => Some (NewBuffer (Hash_Sum digest m' []), data')
  end =
  Some (NewBuffer (digest (algo h) (Buffer_Bytes data)), NewBuffer []).
Proof.
  intros Hw. rewrite io_Copy_into_Hash, Hw. reflexivity.
Qed.

(** The eight helpers: each returns the digest of the unread bytes in a
    new buffer and leaves its argument reset. *)
Lemma hash_helpers_result (data : Buffer) :
  Sha1 digest data =
    Some (NewBuffer (digest SHA1 (Buffer_Bytes data)), NewBuffer []) /\
  Sha224 digest data =
    Some (NewBuffer (digest SHA224 (Buffer_Bytes data)), NewBuffer []) /\
  Sha256 digest data =
    Some (NewBuffer (digest SHA256 (Buffer_Bytes data)), NewBuffer []) /\
  Sha384 digest data =
    Some (NewBuffer (digest SHA384 (Buffer_Bytes data)), NewBuffer []) /\
  Sha512 digest data =
    Some (NewBuffer (digest SHA512 (Buffer_Bytes data)), NewBuffer []) /\
  Sha512_224 digest data =
    Some (NewBuffer (digest SHA512_224 (Buffer_Bytes data)), NewBuffer []) /\
  Sha512_256 digest data =
    Some (NewBuffer (digest SHA512_256 (Buffer_Bytes data)), NewBuffer []) /\
  Md5 digest data =
    Some (NewBuffer (digest MD5 (Buffer_Bytes data)), NewBuffer []).
Proof.
  repeat split.
  - exact (helper_result sha1_New data eq_refl).
  - exact (helper_result sha256_New224 data eq_refl).
  - exact (helper_result sha256_New data eq_refl).
  - exact (helper_result sha512_New384 data eq_refl).
  - exact (helper_result sha512_New data eq_refl).
  - exact (helper_result sha512_New512_224 data eq_refl).
  - exact (helper_result sha512_New512_256 data eq_refl).
  - exact (helper_result md5_New data eq_refl).
Qed.

(** C9: every hashing helper (Sha1, Sha224, Sha256, Sha384, Sha512,
    Sha512_224, Sha512_256, Md5) drains its argument: for every buffer the
    call returns, and afterwards the remaining length of the buffer it was
    given is 0, since io.Copy consumes it. *)
Theorem hash_helpers_drain_argument (data : Buffer) :
  drains (Sha1 digest) data /\
  drains (Sha224 digest) data /\
  drains (Sha256 digest) data /\
  drains (Sha384 digest) data /\
  drains (Sha512 digest) data /\
  drains (Sha512_224 digest) data /\
  drains (Sha512_256 digest) data /\
  drains (Md5 digest) data.
Proof.
  destruct (hash_helpers_result data)
    as (H1 & H2 & H3 & H4 & H5 & H6 & H7 & H8).
  unfold drains.
  repeat split; eexists _, _; (split; [eassumption | reflexivity]).
Qed.

End HashingProperties.

(** The helpers on a three-byte buffer of which one byte was read, with a
    digest that returns its message: two bytes are hashed, none is left. *)
Example Sha256_drains_abc :
  Sha256 (fun _ msg => msg) {| buf := [Byte.x61; Byte.x62; Byte.x63]; off := 1 |}
  = Some (NewBuffer [Byte.x62; Byte.x63], NewBuffer []).
Proof. reflexivity. Qed.

(** * Further properties *)

(** ** BufToHexString *)

Lemma hex_decode_byte (c : Byte.byte) :
  match hex_value (digit (N.shiftr (Byte.to_N c) 4)),
        hex_value (digit (N.land (Byte.to_N c) 15)) with
  | Some h, Some l => Byte.of_N (16 * h + l) = Some c
  | _, _ => False
  end.
Proof. destruct c; vm_compute; reflexivity. Qed.

Lemma hex_digits_of_byte (c : Byte.byte) :
  is_lower_hex (digit (N.shiftr (Byte.to_N c) 4)) /\
  is_lower_hex (digit (N.land (Byte.to_N c) 15)).
Proof.
  unfold is_lower_hex.
  destruct c; vm_compute; split; tauto.
Qed.

(** Decoding what [%x] printed gives the bytes back. *)
Lemma hex_decode_Sprintf_x (b : list Byte.byte) :
  hex_decode (Sprintf_x b) = Some b.
Proof.
  induction b as [| c b IH]; [reflexivity |].
  cbn [Sprintf_x hex_decode]. rewrite IH.
  pose proof (hex_decode_byte c) as Hc.
  destruct (hex_value (digit (N.shiftr (Byte.to_N c) 4))) as [h |]; [| tauto].
  destruct (hex_value (digit (N.land (Byte.to_N c) 15))) as [l |]; [| tauto].
  rewrite Hc. reflexivity.
Qed.

(** The test of the repository: TestBufToHexString. *)
Example TestBufToHexString :
  BufToHexString (NewBuffer [Byte.x02; Byte.x05; Byte.x08; Byte.x00])
  = "02050800".
Proof. reflexivity. Qed.

(** X13: BufToHexString prints two characters for every unread byte, and
    each of them is a lower-case hexadecimal digit; bytes already read do
    not appear. *)
Theorem BufToHexString_format (data : Buffer) :
  String.length (BufToHexString data) = 2 * Buffer_Len data /\
  Forall is_lower_hex (String.list_ascii_of_string (BufToHexString data)).
Proof.
  unfold BufToHexString, Buffer_Len.
  rewrite <- (length_drop (buf data) (off data)).
  fold (Buffer_Bytes data).
  induction (Buffer_Bytes data) as [| c b [IHlen IHhex]].
  - split; [reflexivity | constructor].
  - split.
    + cbn [Sprintf_x String.length length]. rewrite IHlen. lia.
    + cbn [Sprintf_x String.list_ascii_of_string].
      destruct (hex_digits_of_byte c) as [Hhi Hlo].
      constructor; [exact Hhi |]. constructor; [exact Hlo | exact IHhex].
Qed.

(** X14: BufToHexString tells buffers apart exactly by their unread
    bytes: two buffers print the same string if and only if their unread
    bytes are the same. *)
Theorem BufToHexString_injective (b1 b2 : Buffer) :
  BufToHexString b1 = BufToHexString b2 <-> Buffer_Bytes b1 = Buffer_Bytes b2.
Proof.
  unfold BufToHexString. split.
  - intros H.
    assert (Hd : hex_decode (Sprintf_x (Buffer_Bytes b1))
                 = hex_decode (Sprintf_x (Buffer_Bytes b2)))
      by (rewrite H; reflexivity).
    rewrite !hex_decode_Sprintf_x in Hd. injection Hd as Hd. exact Hd.
  - intros ->. reflexivity.
Qed.

(** ** The hashing helpers and the hexadecimal helper together *)

Section HashingComposition.

Variable digest : algorithm -> list Byte.byte -> list Byte.byte.

Lemma helper_hashes_unread (h : Hash) (data : Buffer) :
  written h = [] ->
  hashes_unread digest
    (fun data =>
       match io_Copy h data with
       | None => None
       | Some (data', m', _, _) =>
           Some (NewBuffer (Hash_Sum digest m' []), data')
       end)
    (algo h) data.
Proof.
  intros Hw. unfold hashes_unread.
  rewrite (helper_result digest h data Hw).
  eexists _, _. repeat split.
Qed.

Lemma helper_leaves_empty (h : Hash) (data : Buffer) :
  written h = [] ->
  leaves_empty digest
    (fun data =>
       match io_Copy h data with
       | None => None
       | Some (data', m', _, _) =>
           Some (NewBuffer (Hash_Sum digest m' []), data')
       end)
    (algo h) data.
Proof.
  intros Hw. unfold leaves_empty.
  rewrite (helper_result digest h data Hw).
  eexists _, _. split; [reflexivity |]. split; [reflexivity |].
  rewrite (helper_result digest h (NewBuffer []) Hw). reflexivity.
Qed.

(** X11: every helper computes the hash it is named after, of exactly the
    bytes that were unread in its argument, and returns it in a new buffer;
    BufToHexString of that buffer is the digest in hexadecimal. *)
Theorem hash_helpers_hash_unread_bytes (data : Buffer) :
  hashes_unread digest (Sha1 digest) SHA1 data /\
  hashes_unread digest (Sha224 digest) SHA224 data /\
  hashes_unread digest (Sha256 digest) SHA256 data /\
  hashes_unread digest (Sha384 digest) SHA384 data /\
  hashes_unread digest (Sha512 digest) SHA512 data /\
  hashes_unread digest (Sha512_224 digest) SHA512_224 data /\
  hashes_unread digest (Sha512_256 digest) SHA512_256 data /\
  hashes_unread digest (Md5 digest) MD5 data.
Proof.
  repeat split.
  - exact (helper_hashes_unread sha1_New data eq_refl).
  - exact (helper_hashes_unread sha256_New224 data eq_refl).
  - exact (helper_hashes_unread sha256_New data eq_refl).
  - exact (helper_hashes_unread sha512_New384 data eq_refl).
  - exact (helper_hashes_unread sha512_New data eq_refl).
  - exact (helper_hashes_unread sha512_New512_224 data eq_refl).
  - exact (helper_hashes_unread sha512_New512_256 data eq_refl).
  - exact (helper_hashes_unread md5_New data eq_refl).
Qed.

(** X12: after any helper the argument reads as empty to the rest of
    the package: BufToHexString of it is the empty string, and hashing it
    again gives the hash of the empty message, not of the data. *)
Theorem hash_helpers_leave_empty_buffer (data : Buffer) :
  leaves_empty digest (Sha1 digest) SHA1 data /\
  leaves_empty digest (Sha224 digest) SHA224 data /\
  leaves_empty digest (Sha256 digest) SHA256 data /\
  leaves_empty digest (Sha384 digest) SHA384 data /\
  leaves_empty digest (Sha512 digest) SHA512 data /\
  leaves_empty digest (Sha512_224 digest) SHA512_224 data /\
  leaves_empty digest (Sha512_256 digest) SHA512_256 data /\
  leaves_empty digest (Md5 digest) MD5 data.
Proof.
  repeat split.
  - exact (helper_leaves_empty sha1_New data eq_refl).
  - exact (helper_leaves_empty sha256_New224 data eq_refl).
  - exact (helper_leaves_empty sha256_New data eq_refl).
  - exact (helper_leaves_empty sha512_New384 data eq_refl).
  - exact (helper_leaves_empty sha512_New data eq_refl).
  - exact (helper_leaves_empty sha512_New512_224 data eq_refl).
  - exact (helper_leaves_empty sha512_New512_256 data eq_refl).
  - exact (helper_leaves_empty md5_New data eq_refl).
Qed.

End HashingComposition.

(** ** GracefulStop on a started server *)

Lemma GracefulStop_enters_shutdown (E : Env) (w : World) (srv : http_Server) :
  started (mserver w) = true ->
  Server (mserver w) = Some srv ->
  run (GracefulStop E false) w =
  run (stopServerInternal E)
    (emit (EvLog (" Shutting down Server at " ++ Addr srv ++ " ...")) w).
Proof.
  intros Hs Hsrv. unfold GracefulStop.
  cbn [bind run get]. rewrite Hs. cbn [negb bind run get]. rewrite Hsrv.
  cbn [Server_Addr bind run log_Printf effect]. reflexivity.
Qed.

Lemma GracefulStop_waits_first (E : Env) (w : World) :
  Error (mserver w) = nil ->
  run (GracefulStop E true) w =
  match run (recv E (stop (mserver w)))
          (emit (EvLog " Waiting for signals ...") w) with
  | Returns _ w1 => run (GracefulStop E false) w1
  | Blocks w1 => Blocks w1
  | Panics msg w1 => Panics msg w1
  end.
Proof.
  intros He. unfold GracefulStop.
  rewrite run_bind. cbn [bind run get]. rewrite He.
  cbn [is_nil bind run log_Println effect get].
  rewrite run_bind.
  change (stop (mserver (emit (EvLog " Waiting for signals ...") w)))
    with (stop (mserver w)).
  destruct (run (recv E (stop (mserver w))) _); reflexivity.
Qed.

(** The whole shutdown, for any caller that hands the result on. *)
Lemma stopServerInternal_complete (E : Env) (w : World) (srv : http_Server)
    (c : chan) (st : chan_state) :
  serving w srv c st ->
  complete_shutdown E w srv c st id (run (stopServerInternal E) w).
Proof.
  intros (Hs & Hsrv & Hstop & Hc & Hopen).
  unfold complete_shutdown.
  rewrite (stopServerInternal_run E w srv c st Hs Hsrv Hstop Hc Hopen).
  cbv zeta. unfold id. f_equal.
  unfold emit, with_chans, with_mserver. simpl.
  rewrite <- !app_assoc. reflexivity.
Qed.

Lemma serving_emit (e : event) (w : World) (srv : http_Server) (c : chan)
    (st : chan_state) :
  serving w srv c st -> serving (emit e w) srv c st.
Proof. intros H. exact H. Qed.

Lemma GracefulStop_no_wait_shuts_down_aux (E : Env) (w : World)
    (srv : http_Server) (c : chan) (st : chan_state) :
  serving w srv c st ->
  complete_shutdown E
    (emit (EvLog (" Shutting down Server at " ++ Addr srv ++ " ...")) w)
    srv c st id
    (run (GracefulStop E false) w).
Proof.
  intros H. pose proof H as (Hs & Hsrv & _).
  rewrite (GracefulStop_enters_shutdown E w srv Hs Hsrv).
  apply stopServerInternal_complete. apply serving_emit. exact H.
Qed.

(** X3: GracefulStop(false) on a started server shuts it down at once:
    it logs the address and runs the whole shutdown, and what it returns is
    the result of Shutdown. *)
Theorem GracefulStop_no_wait_shuts_down (E : Env) (w : World)
    (srv : http_Server) (c : chan) (st : chan_state) :
  serving w srv c st ->
  complete_shutdown E
    (emit (EvLog (" Shutting down Server at " ++ Addr srv ++ " ...")) w)
    srv c st id
    (run (GracefulStop E false) w).
Proof. apply GracefulStop_no_wait_shuts_down_aux. Qed.

Lemma GracefulStop_no_wait_shuts_down_witness :
  complete_shutdown E_quiet
    (emit (EvLog " Shutting down Server at :8080 ...") w_running)
    server8080 0 (mkChan false None [Kill; Interrupt]) id
    (run (GracefulStop E_quiet false) w_running).
Proof.
  apply (GracefulStop_no_wait_shuts_down E_quiet w_running server8080 0
           (mkChan false None [Kill; Interrupt])).
  repeat split; reflexivity.
Defined.

(** X4: GracefulStop(true) on a started server with no recorded error
    waits; when the system relays a signal the channel is subscribed to,
    the call receives it and then runs the whole shutdown, returning the
    result of Shutdown. *)
Theorem GracefulStop_wait_shuts_down_on_signal (E : Env) (w : World)
    (srv : http_Server) (c : chan) (st : chan_state) (s : Signal) :
  serving w srv c st ->
  Error (mserver w) = nil ->
  pending st = None ->
  os_signal E (emit (EvLog " Waiting for signals ...") w) c = Some s ->
  In s (notified st) ->
  complete_shutdown E
    (emit (EvLog (" Shutting down Server at " ++ Addr srv ++ " ..."))
       (emit (EvRecv c (Some s))
          (emit (EvLog " Waiting for signals ...") w)))
    srv c st id
    (run (GracefulStop E true) w).
Proof.
  intros H He Hp Hsig Hin. pose proof H as (Hs & Hsrv & Hstop & Hc & Hopen).
  rewrite (GracefulStop_waits_first E w He), Hstop.
  cbn [recv run]. cbn [emit chans]. rewrite Hc, Hopen, Hp.
  rewrite Hsig.
  rewrite bool_decide_eq_true_2 by (apply list_elem_of_In; exact Hin).
  cbn [run].
  rewrite (GracefulStop_enters_shutdown E
             (emit (EvRecv c (Some s))
                (emit (EvLog " Waiting for signals ...") w)) srv Hs Hsrv).
  apply stopServerInternal_complete. exact H.
Qed.

Lemma GracefulStop_wait_shuts_down_on_signal_witness :
  complete_shutdown E_fatal
    (emit (EvLog " Shutting down Server at :8080 ...")
       (emit (EvRecv 0 (Some Interrupt))
          (emit (EvLog " Waiting for signals ...") w_running)))
    server8080 0 (mkChan false None [Kill; Interrupt]) id
    (run (GracefulStop E_fatal true) w_running).
Proof.
  apply (GracefulStop_wait_shuts_down_on_signal E_fatal w_running server8080 0
           (mkChan false None [Kill; Interrupt]) Interrupt).
  - repeat split; reflexivity.
  - reflexivity.
  - reflexivity.
  - reflexivity.
  - simpl. tauto.
Defined.

(** X5: GracefulStop(true) on a started server takes the signal a
    blocked sender (ForceStop) is offering on the stop channel, which frees
    the sender's slot, and then runs the whole shutdown. *)
Theorem GracefulStop_wait_takes_offer (E : Env) (w : World)
    (srv : http_Server) (c : chan) (st : chan_state) (s : Signal) :
  serving w srv c st ->
  Error (mserver w) = nil ->
  pending st = Some s ->
  complete_shutdown E
    (emit (EvLog (" Shutting down Server at " ++ Addr srv ++ " ..."))
       (emit (EvRecv c (Some s))
          (with_chans <[c := mkChan false None (notified st)]>
             (emit (EvLog " Waiting for signals ...") w))))
    srv c (mkChan false None (notified st)) id
    (run (GracefulStop E true) w).
Proof.
  intros H He Hp. pose proof H as (Hs & Hsrv & Hstop & Hc & Hopen).
  rewrite (GracefulStop_waits_first E w He), Hstop.
  cbn [recv run]. cbn [emit chans]. rewrite Hc, Hopen, Hp.
  cbn [run].
  rewrite (GracefulStop_enters_shutdown E
             (emit (EvRecv c (Some s))
                (with_chans <[c := mkChan false None (notified st)]>
                   (emit (EvLog " Waiting for signals ...") w))) srv Hs Hsrv).
  apply stopServerInternal_complete.
  repeat split; try assumption.
  simpl. apply list_lookup_insert_eq. eapply lookup_lt_Some; exact Hc.
Qed.

Lemma GracefulStop_wait_takes_offer_witness :
  complete_shutdown E_quiet
    (emit (EvLog " Shutting down Server at :8080 ...")
       (emit (EvRecv 0 (Some Kill))
          (with_chans <[0 := mkChan false None []]>
             (emit (EvLog " Waiting for signals ...") w_offered))))
    server8080 0 (mkChan false None []) id
    (run (GracefulStop E_quiet true) w_offered).
Proof.
  apply (GracefulStop_wait_takes_offer E_quiet w_offered server8080 0
           (mkChan false (Some Kill) []) Kill).
  - repeat split; reflexivity.
  - reflexivity.
  - reflexivity.
Defined.

(** X6: GracefulStop(true) with no recorded error does not return
    before a termination event: while the stop channel is open, no sender
    offers a signal and the system relays none the channel is subscribed
    to, the call stays blocked, whether the server was started or not. *)
Theorem GracefulStop_wait_blocks_without_event (E : Env) (w : World)
    (c : chan) (st : chan_state) :
  Error (mserver w) = nil ->
  stop (mserver w) = Some c ->
  chans w !! c = Some st ->
  closed st = false ->
  pending st = None ->
  (forall s : Signal,
     os_signal E (emit (EvLog " Waiting for signals ...") w) c = Some s ->
     ~ In s (notified st)) ->
  run (GracefulStop E true) w
  = Blocks (emit (EvLog " Waiting for signals ...") w).
Proof.
  intros He Hstop Hc Hopen Hp Hquiet.
  rewrite (GracefulStop_waits_first E w He), Hstop.
  cbn [recv run]. cbn [emit chans]. rewrite Hc, Hopen, Hp.
  destruct (os_signal E (emit (EvLog " Waiting for signals ...") w) c)
    as [s |] eqn:Hsig; [| reflexivity].
  rewrite bool_decide_eq_false_2; [reflexivity |].
  intros Hin. apply (Hquiet s eq_refl). apply list_elem_of_In. exact Hin.
Qed.

Lemma GracefulStop_wait_blocks_without_event_witness :
  run (GracefulStop E_quiet true) w_launched
  = Blocks (emit (EvLog " Waiting for signals ...") w_launched).
Proof.
  apply (GracefulStop_wait_blocks_without_event E_quiet w_launched 0
           (mkChan false None [Kill; Interrupt]));
    try reflexivity.
  intros s Hs. discriminate Hs.
Defined.

(** ** ForceStop on a started server *)

(** X7: ForceStop on a started server unsubscribes the stop channel
    from the system's signals, offers os.Kill on it, and then blocks its
    caller: the channel is unbuffered, so the call does not return until a
    receiver (GracefulStop(true)) takes the signal.  No field changes. *)
Theorem ForceStop_started_offers_Kill_and_blocks (w : World)
    (srv : http_Server) (c : chan) (st : chan_state) :
  serving w srv c st ->
  pending st = None ->
  run ForceStop w =
  Blocks
    {| mserver := mserver w;
       chans := <[c := mkChan false (Some Kill) []]> (chans w);
       trace := trace w ++ [EvSignalStop (Some c); EvOffer c Kill] |}.
Proof.
  intros (Hs & Hsrv & Hstop & Hc & Hopen) Hp.
  assert (Hlt : c < length (chans w)) by (eapply lookup_lt_Some; exact Hc).
  destruct st as [cl pe no]. simpl in Hopen, Hp. subst cl pe.
  open_world w. unfold ForceStop.
  repeat (progress (simpl; unfold emit, with_chans, with_mserver; simpl;
                    rewrite ?Hc, ?list_insert_insert_eq,
                      ?(list_lookup_insert_eq _ _ _ Hlt))).
  rewrite <- app_assoc. reflexivity.
Qed.

Lemma ForceStop_started_offers_Kill_and_blocks_witness :
  run ForceStop w_running =
  Blocks
    {| mserver := mserver w_running;
       chans := <[0 := mkChan false (Some Kill) []]> (chans w_running);
       trace := trace w_running ++ [EvSignalStop (Some 0); EvOffer 0 Kill] |}.
Proof.
  apply (ForceStop_started_offers_Kill_and_blocks w_running server8080 0
           (mkChan false None [Kill; Interrupt])).
  - repeat split; reflexivity.
  - reflexivity.
Defined.

(** ** Starting *)

Lemma StartServer_run (w : World) (addr : string) (m : ServeMux)
    (timeout : Duration) :
  addr <> EmptyString ->
  timeout <> 0%Z ->
  run (StartServer addr (Some m) timeout) w
  = Returns tt (started_world w addr m timeout).
Proof.
  intros Haddr Htimeout.
  assert (Hguard : (String.length addr =? 0)%nat || (timeout =? 0)%Z
                   || bool_decide (Some m = None) = false).
  { destruct addr as [| a addr]; [congruence |].
    apply Z.eqb_neq in Htimeout. rewrite Htimeout. reflexivity. }
  destruct w as [[S0 s0 b0 T0 e0] cs tr].
  unfold StartServer, started_world. rewrite Hguard. simpl.
  rewrite lookup_fresh. simpl.
  unfold emit, with_chans, with_mserver. simpl.
  rewrite insert_fresh, <- !app_assoc. reflexivity.
Qed.

(** X1: StartServer with a non-empty address, a mux and a timeout other
    than zero (negative ones included) returns in [started_world]: it adds
    one channel and leaves the existing ones alone, subscribes the new
    channel to os.Kill and os.Interrupt, fills in Server and
    ShutdownTimeout, clears Error, does not touch [started], and starts one
    serving task.  NewMserver is this on a zeroed struct with the default
    mux. *)
Theorem StartServer_sets_up (w : World) (addr : string) (m : ServeMux)
    (timeout : Duration) :
  addr <> EmptyString ->
  timeout <> 0%Z ->
  run (StartServer addr (Some m) timeout) w
  = Returns tt (started_world w addr m timeout) /\
  run (NewMserver addr timeout) w
  = Returns tt
      (started_world (with_mserver (fun _ => zero_Mserver) w) addr
         DefaultServeMux timeout).
Proof.
  intros Haddr Htimeout. split.
  - apply StartServer_run; assumption.
  - unfold NewMserver, StartDefaultServer. cbn [bind run put].
    rewrite (StartServer_run _ addr DefaultServeMux timeout Haddr Htimeout).
    reflexivity.
Qed.

Lemma StartServer_sets_up_witness :
  run (StartServer ":8080" (Some DefaultServeMux) (-1)%Z) w_failed_before
  = Returns tt (started_world w_failed_before ":8080" DefaultServeMux (-1)%Z) /\
  run (NewMserver ":8080" (-1)%Z) w_failed_before
  = Returns tt
      (started_world (with_mserver (fun _ => zero_Mserver) w_failed_before)
         ":8080" DefaultServeMux (-1)%Z).
Proof.
  apply (StartServer_sets_up w_failed_before ":8080" DefaultServeMux (-1)%Z).
  - discriminate.
  - lia.
Defined.

(** X2: the program of the README with an address or a timeout that
    StartServer turns away never comes back: NewMserver returns the zero
    Mserver without starting anything, and GracefulStop(true) then blocks
    in the receive from the nil channel, whatever the environment does. *)
Theorem README_main_invalid_blocks (E : Env) (w : World) (addr : string)
    (timeout : Duration) :
  addr = EmptyString \/ timeout = 0%Z ->
  run (README_main E addr timeout) w =
  Blocks
    {| mserver := zero_Mserver;
       chans := chans w;
       trace := trace w ++ [EvLog " Waiting for signals ..."] |}.
Proof.
  intros H. unfold README_main, NewMserver, StartDefaultServer.
  rewrite StartServer_guard by tauto.
  reflexivity.
Qed.

Lemma README_main_invalid_blocks_witness :
  run (README_main E_fatal EmptyString (10 * Second)%Z) World0 =
  Blocks
    {| mserver := zero_Mserver;
       chans := chans World0;
       trace := trace World0 ++ [EvLog " Waiting for signals ..."] |}.
Proof.
  apply (README_main_invalid_blocks E_fatal World0 EmptyString (10 * Second)%Z).
  left. reflexivity.
Defined.

(** X8: StartServer on an Mserver that is running replaces Server,
    the stop channel and the timeout, but the serving task it starts finds
    the flag up, logs and returns without calling ListenAndServe: the new
    server never listens.  A GracefulStop(false) that follows calls Shutdown
    on the new server and closes the new channel, not the ones of the
    server that is listening. *)
Theorem second_StartServer_replaces_unserved (E : Env) (w : World)
    (addr : string) (m : ServeMux) (timeout : Duration) :
  started (mserver w) = true ->
  addr <> EmptyString ->
  timeout <> 0%Z ->
  run (StartServer addr (Some m) timeout ;;; startGoServerInternal E)%prog w
  = Returns tt
      (emit (EvLog " Server Already Stared")
         (started_world w addr m timeout)) /\
  complete_shutdown E
    (emit (EvLog (" Shutting down Server at " ++ addr ++ " ..."))
       (emit (EvLog " Server Already Stared")
          (started_world w addr m timeout)))
    {| Addr := addr; Handler := Some m |}
    (length (chans w)) (mkChan false None [Kill; Interrupt]) id
    (run (GracefulStop E false)
       (emit (EvLog " Server Already Stared")
          (started_world w addr m timeout))).
Proof.
  intros Hs Haddr Htimeout. split.
  - rewrite run_bind, (StartServer_run w addr m timeout Haddr Htimeout).
    unfold startGoServerInternal. cbn [bind run get started_world mserver started].
    rewrite Hs. reflexivity.
  - refine (GracefulStop_no_wait_shuts_down_aux E
              (emit (EvLog " Server Already Stared")
                 (started_world w addr m timeout))
              {| Addr := addr; Handler := Some m |}
              (length (chans w)) (mkChan false None [Kill; Interrupt]) _).
    repeat split; try assumption.
    simpl. apply lookup_fresh.
Qed.

Lemma second_StartServer_replaces_unserved_witness :
  run (StartServer ":9090" (Some (UserMux 1)) Second ;;;
       startGoServerInternal E_quiet)%prog w_running
  = Returns tt
      (emit (EvLog " Server Already Stared")
         (started_world w_running ":9090" (UserMux 1) Second)) /\
  complete_shutdown E_quiet
    (emit (EvLog (" Shutting down Server at " ++ ":9090" ++ " ..."))
       (emit (EvLog " Server Already Stared")
          (started_world w_running ":9090" (UserMux 1) Second)))
    {| Addr := ":9090"; Handler := Some (UserMux 1) |}
    (length (chans w_running)) (mkChan false None [Kill; Interrupt]) id
    (run (GracefulStop E_quiet false)
       (emit (EvLog " Server Already Stared")
          (started_world w_running ":9090" (UserMux 1) Second))).
Proof.
  apply (second_StartServer_replaces_unserved E_quiet w_running ":9090"
           (UserMux 1) Second).
  - reflexivity.
  - discriminate.
  - unfold Second. lia.
Defined.

(** ** The error path *)

Lemma startGoServerInternal_run_error (E : Env) (w : World)
    (srv : http_Server) (e : error) :
  started (mserver w) = false ->
  Server (mserver w) = Some srv ->
  net_ListenAndServe E
    (with_mserver (set_started true) (emit (EvLog " Server Started ...") w))
    srv = Some e ->
  e <> nil ->
  run (startGoServerInternal E) w =
  run (_ <- stopServerInternal E ;; Ret tt)%prog
    (emit (EvLog " Server Stopping ...")
       (with_mserver (set_Error e)
          (emit (EvListenAndServe srv e)
             (with_mserver (set_started true)
                (emit (EvLog " Server Started ...") w))))).
Proof.
  intros Hs Hsrv Hlas He.
  open_world w.
  unfold startGoServerInternal. simpl. rewrite Hlas. simpl.
  destruct e; [congruence | reflexivity | reflexivity].
Qed.

(** X9: a serving task whose ListenAndServe returns an error shuts the
    server down by itself: it runs the whole shutdown and returns.  The
    error of the listener does not survive it, Error ends up holding the
    result of Shutdown.  A GracefulStop that follows, waiting or not,
    returns ErrServerNotStarted without blocking and shuts nothing down
    again. *)
Theorem serving_task_error_shuts_down (E : Env) (w : World)
    (srv : http_Server) (c : chan) (st : chan_state) (e : error) :
  started (mserver w) = false ->
  Server (mserver w) = Some srv ->
  stop (mserver w) = Some c ->
  chans w !! c = Some st ->
  closed st = false ->
  net_ListenAndServe E
    (with_mserver (set_started true) (emit (EvLog " Server Started ...") w))
    srv = Some e ->
  e <> nil ->
  complete_shutdown E
    (emit (EvLog " Server Stopping ...")
       (with_mserver (set_Error e)
          (emit (EvListenAndServe srv e)
             (with_mserver (set_started true)
                (emit (EvLog " Server Started ...") w)))))
    srv c st (fun _ => tt)
    (run (startGoServerInternal E) w) /\
  (forall waitForInterrupt : bool,
   exists w2 : World,
     run (startGoServerInternal E ;;; GracefulStop E waitForInterrupt)%prog w
     = Returns ErrServerNotStarted w2 /\
     shutdown_calls w2 = S (shutdown_calls w) /\
     close_calls w2 = S (close_calls w)).
Proof.
  intros Hs Hsrv Hstop Hc Hopen Hlas He.
  pose proof (startGoServerInternal_run_error E w srv e Hs Hsrv Hlas He) as Hrun.
  set (w_rec := emit (EvLog " Server Stopping ...")
                  (with_mserver (set_Error e)
                     (emit (EvListenAndServe srv e)
                        (with_mserver (set_started true)
                           (emit (EvLog " Server Started ...") w))))) in *.
  assert (Hserving : serving w_rec srv c st) by (repeat split; assumption).
  pose proof (stopServerInternal_complete E w_rec srv c st Hserving) as Hdone.
  unfold complete_shutdown in Hdone. cbv zeta in Hdone.
  rewrite run_bind, Hdone in Hrun. cbn [run] in Hrun.
  split.
  - unfold complete_shutdown. cbv zeta. exact Hrun.
  - intros b. rewrite run_bind, Hrun.
    match goal with
    | |- context [run (GracefulStop E b) ?w1] =>
        destruct (GracefulStop_shut_down E b w1) as (w2 & Hg & _ & _ & Hsd & Hcl)
    end.
    { split; [reflexivity |].
      exists c, (mkChan true (pending st) (notified st)). simpl.
      repeat split; [exact Hstop |].
      apply list_lookup_insert_eq. eapply lookup_lt_Some; exact Hc. }
    exists w2. split; [exact Hg |].
    rewrite Hsd, Hcl. subst w_rec. split; count_events.
Qed.

Lemma serving_task_error_shuts_down_witness :
  complete_shutdown E_fatal
    (emit (EvLog " Server Stopping ...")
       (with_mserver
          (set_Error (ErrExternal "listen tcp :8080: bind: address already in use"))
          (emit (EvListenAndServe server8080
                   (ErrExternal "listen tcp :8080: bind: address already in use"))
             (with_mserver (set_started true)
                (emit (EvLog " Server Started ...") w_launched)))))
    server8080 0 (mkChan false None [Kill; Interrupt]) (fun _ => tt)
    (run (startGoServerInternal E_fatal) w_launched) /\
  (forall waitForInterrupt : bool,
   exists w2 : World,
     run (startGoServerInternal E_fatal ;;;
          GracefulStop E_fatal waitForInterrupt)%prog w_launched
     = Returns ErrServerNotStarted w2 /\
     shutdown_calls w2 = S (shutdown_calls w_launched) /\
     close_calls w2 = S (close_calls w_launched)).
Proof.
  apply (serving_task_error_shuts_down E_fatal w_launched server8080 0
           (mkChan false None [Kill; Interrupt])
           (ErrExternal "listen tcp :8080: bind: address already in use"));
    try reflexivity.
  discriminate.
Defined.

(** ** Shutting down more than once *)

Lemma triggers_in_turn_shut_down_once_witness :
  exists w' : World,
    run (stopServerInternal_times E_slow 3) w_running
    = Returns
        [ErrExternal "context deadline exceeded"; ErrServerNotStarted;
         ErrServerNotStarted] w' /\
    Error (mserver w') = ErrExternal "context deadline exceeded" /\
    started (mserver w') = false /\
    chans w' = [mkChan true None [Kill; Interrupt]] /\
    trace w' = trace w_running ++
      [EvWithTimeout (10 * Second)%Z;
       EvShutdown server8080 (10 * Second)%Z
         (ErrExternal "context deadline exceeded");
       EvClose 0;
       EvCancel (10 * Second)%Z] /\
    shutdown_calls w' = S (shutdown_calls w_running) /\
    close_calls w' = S (close_calls w_running).
Proof.
  apply (triggers_in_turn_shut_down_once E_slow w_running server8080 0
           (mkChan false None [Kill; Interrupt]) 2);
    reflexivity.
Defined.

(** X10: a call of stopServerInternal that passes the guard although
    the stop channel is closed already (the loser of a shutdown race) still
    calls Shutdown and stores the result; the deferred close then panics,
    the deferred cancel still runs, and the call does not return. *)
Theorem stopServerInternal_on_closed_channel_panics (E : Env) (w : World)
    (srv : http_Server) (c : chan) (st : chan_state) :
  started (mserver w) = true ->
  Server (mserver w) = Some srv ->
  stop (mserver w) = Some c ->
  chans w !! c = Some st ->
  closed st = true ->
  run (stopServerInternal E) w =
  Panics "close of closed channel"
    {| mserver :=
         set_Error
           (net_Shutdown E
              (with_mserver (set_started false)
                 (emit (EvWithTimeout (ShutdownTimeout (mserver w))) w))
              srv (ShutdownTimeout (mserver w)))
           (set_started false (mserver w));
       chans := chans w;
       trace := trace w ++
         [EvWithTimeout (ShutdownTimeout (mserver w));
          EvShutdown srv (ShutdownTimeout (mserver w))
            (net_Shutdown E
               (with_mserver (set_started false)
                  (emit (EvWithTimeout (ShutdownTimeout (mserver w))) w))
               srv (ShutdownTimeout (mserver w)));
          EvCancel (ShutdownTimeout (mserver w))] |}.
Proof.
  intros Hs Hsrv Hstop Hc Hclosed.
  open_world w.
  unfold stopServerInternal; simpl.
  on_shutdown_result; simpl; rewrite Hc, Hclosed; simpl;
    unfold emit, with_mserver; simpl; rewrite <- !app_assoc; reflexivity.
Qed.

Lemma stopServerInternal_on_closed_channel_panics_witness :
  run (stopServerInternal E_quiet) w_closed_early =
  Panics "close of closed channel"
    {| mserver := set_Error nil (set_started false (mserver w_closed_early));
       chans := chans w_closed_early;
       trace := trace w_closed_early ++
         [EvWithTimeout (10 * Second)%Z;
          EvShutdown server8080 (10 * Second)%Z nil;
          EvCancel (10 * Second)%Z] |}.
Proof.
  apply (stopServerInternal_on_closed_channel_panics E_quiet w_closed_early
           server8080 0 (mkChan true None [Kill; Interrupt]));
    reflexivity.
Defined.

(** ** Waiting that is skipped, and waiting that comes too early *)

(** X16: with an error recorded in Error, GracefulStop(true) on a
    started server does not wait for a signal: it goes straight to the
    shutdown, exactly as GracefulStop(false) does. *)
Theorem GracefulStop_wait_skipped_on_error (E : Env) (w : World)
    (srv : http_Server) (c : chan) (st : chan_state) :
  serving w srv c st ->
  Error (mserver w) <> nil ->
  run (GracefulStop E true) w = run (GracefulStop E false) w /\
  complete_shutdown E
    (emit (EvLog (" Shutting down Server at " ++ Addr srv ++ " ...")) w)
    srv c st id
    (run (GracefulStop E true) w).
Proof.
  intros H He.
  assert (Hskip : run (GracefulStop E true) w = run (GracefulStop E false) w).
  { unfold GracefulStop. rewrite !run_bind. cbn [bind run get].
    destruct (Error (mserver w)); [congruence | reflexivity | reflexivity]. }
  split; [exact Hskip |].
  rewrite Hskip. apply GracefulStop_no_wait_shuts_down_aux. exact H.
Qed.

Lemma GracefulStop_wait_skipped_on_error_witness :
  run (GracefulStop E_quiet true)
    (with_mserver (set_Error (ErrExternal "accept tcp: too many open files"))
       w_running)
  = run (GracefulStop E_quiet false)
      (with_mserver (set_Error (ErrExternal "accept tcp: too many open files"))
         w_running) /\
  complete_shutdown E_quiet
    (emit (EvLog (" Shutting down Server at " ++ Addr server8080 ++ " ..."))
       (with_mserver
          (set_Error (ErrExternal "accept tcp: too many open files"))
          w_running))
    server8080 0 (mkChan false None [Kill; Interrupt]) id
    (run (GracefulStop E_quiet true)
       (with_mserver
          (set_Error (ErrExternal "accept tcp: too many open files"))
          w_running)).
Proof.
  apply (GracefulStop_wait_skipped_on_error E_quiet
           (with_mserver
              (set_Error (ErrExternal "accept tcp: too many open files"))
              w_running)
           server8080 0 (mkChan false None [Kill; Interrupt])).
  - repeat split; reflexivity.
  - discriminate.
Defined.

(** X17: a signal that reaches GracefulStop(true) before the serving
    task has raised the flag is used up without a shutdown: the program of
    the README, when the signal arrives while the serving task has not run
    yet, returns from GracefulStop (with ErrServerNotStarted) having called
    neither Shutdown nor close; the serving task it started is still to
    run. *)
Theorem README_main_early_signal_gives_up (E : Env) (w : World)
    (addr : string) (timeout : Duration) (s : Signal) :
  addr <> EmptyString ->
  timeout <> 0%Z ->
  os_signal E
    (emit (EvLog " Waiting for signals ...")
       (started_world (with_mserver (fun _ => zero_Mserver) w) addr
          DefaultServeMux timeout))
    (length (chans w)) = Some s ->
  In s [Kill; Interrupt] ->
  run (README_main E addr timeout) w =
  Returns tt
    (emit (EvRecv (length (chans w)) (Some s))
       (emit (EvLog " Waiting for signals ...")
          (started_world (with_mserver (fun _ => zero_Mserver) w) addr
             DefaultServeMux timeout))) /\
  run (GracefulStop E true)
    (started_world (with_mserver (fun _ => zero_Mserver) w) addr
       DefaultServeMux timeout) =
  Returns ErrServerNotStarted
    (emit (EvRecv (length (chans w)) (Some s))
       (emit (EvLog " Waiting for signals ...")
          (started_world (with_mserver (fun _ => zero_Mserver) w) addr
             DefaultServeMux timeout))).
Proof.
  intros Haddr Htimeout Hsig Hin.
  set (w1 := started_world (with_mserver (fun _ => zero_Mserver) w) addr
               DefaultServeMux timeout) in *.
  assert (Hg : run (GracefulStop E true) w1 =
               Returns ErrServerNotStarted
                 (emit (EvRecv (length (chans w)) (Some s))
                    (emit (EvLog " Waiting for signals ...") w1))).
  { rewrite (GracefulStop_waits_first E w1 eq_refl).
    change (stop (mserver w1)) with (Some (length (chans w))).
    cbn [recv run]. cbn [emit chans].
    change (chans w1) with (chans w ++ [mkChan false None [Kill; Interrupt]]).
    rewrite lookup_fresh. cbn [closed pending notified].
    rewrite Hsig.
    rewrite bool_decide_eq_true_2 by (apply list_elem_of_In; exact Hin).
    reflexivity. }
  split; [| exact Hg].
  unfold README_main. rewrite run_bind.
  assert (Hn : run (NewMserver addr timeout) w = Returns tt w1).
  { unfold NewMserver, StartDefaultServer. cbn [bind run put].
    rewrite (StartServer_run _ addr DefaultServeMux timeout Haddr Htimeout).
    reflexivity. }
  rewrite Hn, run_bind, Hg. reflexivity.
Qed.

Lemma README_main_early_signal_gives_up_witness :
  run (README_main E_fatal ":8080" (10 * Second)%Z) World0 =
  Returns tt
    (emit (EvRecv (length (chans World0)) (Some Interrupt))
       (emit (EvLog " Waiting for signals ...")
          (started_world (with_mserver (fun _ => zero_Mserver) World0) ":8080"
             DefaultServeMux (10 * Second)%Z))) /\
  run (GracefulStop E_fatal true)
    (started_world (with_mserver (fun _ => zero_Mserver) World0) ":8080"
       DefaultServeMux (10 * Second)%Z) =
  Returns ErrServerNotStarted
    (emit (EvRecv (length (chans World0)) (Some Interrupt))
       (emit (EvLog " Waiting for signals ...")
          (started_world (with_mserver (fun _ => zero_Mserver) World0) ":8080"
             DefaultServeMux (10 * Second)%Z))).
Proof.
  apply (README_main_early_signal_gives_up E_fatal World0 ":8080"
           (10 * Second)%Z Interrupt).
  - discriminate.
  - unfold Second. lia.
  - reflexivity.
  - simpl. tauto.
Defined.
